(** * Filesystem MCP server ([server.py]): a shallow embedding and its properties

    The server exposes [read_file], [list_directory] and [search_files] behind
    the path check [secure_path], plus an optional ring of recent file
    changes.  Python strings are modelled as [string], Python integers as [Z],
    exceptions as values of [exn] carried by [outcome].  The path functions of
    [posixpath] that decide the path check ([isabs], [join], [normpath],
    [relpath]) are transcribed from the standard library.  What a tool can
    only observe ([os.path.isfile], [os.listdir], [open], [glob.glob],
    [re.compile], ...) and the text methods [splitlines] and [strip], whose
    Unicode behaviour a byte string cannot carry, are the fields of an
    environment record that every tool reads and never writes.  The logger
    and the module-level list [file_changes] are the only mutable state. *)

From Stdlib Require Import String Ascii List ZArith Lia Bool Arith.
From Stdlib Require Import Numbers.DecimalString.
From Stdlib Require Import Sorted.
Import ListNotations.

Open Scope list_scope.
Open Scope string_scope.

(** ** Python values: exceptions and outcomes *)

Inductive exn : Type :=
| ValueError (msg : string)
| OSError (msg : string)
| UnicodeDecodeError (msg : string)
| re_error (msg : string).

(** [str(e)] *)
Definition str (e : exn) : string :=
  match e with
  | ValueError m | OSError m | UnicodeDecodeError m | re_error m => m
  end.

Inductive outcome (A : Type) : Type :=
| Return (a : A)
| Raise (e : exn).
Arguments Return {A} a.
Arguments Raise {A} e.

(** ** The [str] methods the server uses *)

Module PyStr.

(** [s.startswith(p)] *)
Definition startswith (s p : string) : bool := String.prefix p s.

(** [s.endswith(c)] for a one-character [c] *)
Fixpoint endswith (s : string) (c : ascii) : bool :=
  match s with
  | EmptyString => false
  | String a EmptyString => Ascii.eqb a c
  | String _ s' => endswith s' c
  end.

(** [s.split(c)] for a one-character separator [c]: never the empty list *)
Fixpoint split (c : ascii) (s : string) : list string :=
  match s with
  | EmptyString => [EmptyString]
  | String a s' =>
      if Ascii.eqb a c then EmptyString :: split c s'
      else match split c s' with
           | [] => [String a EmptyString]
           | w :: ws => String a w :: ws
           end
  end.

(** [c in s] for a one-character [c] *)
Fixpoint contains (c : ascii) (s : string) : bool :=
  match s with
  | EmptyString => false
  | String a s' => Ascii.eqb a c || contains c s'
  end.

(** [sep.join(l)] *)
Definition join (sep : string) (l : list string) : string := String.concat sep l.

(** [c * n] *)
Fixpoint repeat (c : string) (n : nat) : string :=
  match n with
  | O => EmptyString
  | S n' => c ++ repeat c n'
  end.

(** [str(n)] for an integer *)
Definition of_Z (n : Z) : string := NilZero.string_of_int (Z.to_int n).

End PyStr.

(** ** [posixpath]: the pure path functions of the standard library *)

Module PosixPath.
Import PyStr.

Definition sep : string := "/".
Definition sepc : ascii := "/"%char.

Definition isabs (s : string) : bool := startswith s sep.

(** [os.path.join(a, b)] *)
Definition join (a b : string) : string :=
  if startswith b sep then b
  else if (a =? "") || endswith a sepc then a ++ b
  else a ++ sep ++ b.

Definition is_nil {A} (l : list A) : bool :=
  match l with [] => true | _ => false end.

(** POSIX allows one or two initial slashes, but treats three or more as a
    single slash. *)
Definition initial_slashes (path : string) : nat :=
  if startswith path sep then
    if startswith path (repeat sep 2) && negb (startswith path (repeat sep 3))
    then 2 else 1
  else 0.

(** One turn of the loop [for comp in comps] of [normpath]; [new_comps] is
    the list under construction, appended to and popped at its end. *)
Definition normpath_step (slashes : nat) (new_comps : list string) (comp : string)
  : list string :=
  if (comp =? "") || (comp =? ".") then new_comps
  else if negb (comp =? "..")
          || ((slashes =? 0)%nat && is_nil new_comps)
          || (negb (is_nil new_comps) && (last new_comps "" =? ".."))
  then (new_comps ++ [comp])%list
  else if negb (is_nil new_comps) then removelast new_comps
  else new_comps.

Definition normpath (path : string) : string :=
  if path =? "" then "."
  else
    let slashes := initial_slashes path in
    let comps := split sepc path in
    let new_comps := fold_left (normpath_step slashes) comps [] in
    let path := PyStr.join sep new_comps in
    let path := repeat sep slashes ++ path in
    if path =? "" then "." else path.

(** [os.path.abspath], given the working directory of the process. *)
Definition abspath (cwd path : string) : string :=
  normpath (if negb (isabs path) then join cwd path else path).

(** [len(commonprefix([l1, l2]))] for two lists of names. *)
Fixpoint common_prefix_len (l1 l2 : list string) : nat :=
  match l1, l2 with
  | x :: l1', y :: l2' => if x =? y then S (common_prefix_len l1' l2') else 0
  | _, _ => 0
  end.

(** [os.path.relpath(path, start)]. *)
Definition relpath (cwd path start : string) : outcome string :=
  if path =? "" then Raise (ValueError "no path specified")
  else
    let nonempty := filter (fun x => negb (x =? "")) in
    let start_list := nonempty (split sepc (abspath cwd start)) in
    let path_list := nonempty (split sepc (abspath cwd path)) in
    let i := common_prefix_len start_list path_list in
    let rel_list := (List.repeat ".." (List.length start_list - i)
                     ++ skipn i path_list)%list in
    match rel_list with
    | [] => Return "."
    | a :: p => Return (fold_left join p a)
    end.

End PosixPath.

(** ** The dictionaries the tools build *)

(** An entry of [list_directory]: the key ["size"] is present for files only. *)
Record item_info : Type := mk_item_info {
  item_name : string;
  item_type : string;
  item_is_hidden : bool;
  item_size : option Z
}.

(** A match of the content search. *)
Record match_info : Type := mk_match_info {
  line_number : Z;
  content : string
}.

(** An entry of [search_files]: the key ["matches"] is present only when a
    content regex was given. *)
Record search_result : Type := mk_search_result {
  result_path : string;
  result_size : Z;
  result_matches : option (list match_info)
}.

(** A [watchdog] event, as far as the handler reads it. *)
Record fs_event : Type := mk_fs_event {
  src_path : string;
  event_type : string;
  is_directory : bool
}.

(** ** The state of the process and the monad of the tools *)

Inductive level : Type := DEBUG | INFO | WARNING | ERROR.

(** What [logger] has been asked to emit, oldest first. *)
Definition log : Type := list (level * string).

Section Runtime.

(** The compiled pattern objects of [re], and the floats of [getmtime]. *)
Variable regex : Type.
Variable timestamp : Type.

(** A record of the change ring; [change_time] is [None] when the path no
    longer exists. *)
Record change : Type := mk_change {
  change_path : string;
  change_type : string;
  change_time : option timestamp
}.

(** What a tool can observe of the filesystem and of the [re] and [str]
    library: a snapshot for the duration of one call. *)
Record Env : Type := mkEnv {
  os_path_isfile : string -> bool;
  os_path_isdir : string -> bool;
  os_path_exists : string -> bool;
  os_listdir : string -> outcome (list string);
  os_path_getsize : string -> outcome Z;
  os_path_getmtime : string -> outcome timestamp;
  os_getcwd : string;
  open_read : string -> outcome string;
  glob_glob : string -> bool -> list string;
  re_compile : string -> outcome regex;
  re_search : regex -> string -> bool;
  splitlines : string -> list string;
  strip : string -> string
}.

(** A computation reads the environment, appends to the log and returns or
    raises. *)
Definition M (A : Type) : Type := Env -> log -> outcome A * log.

Definition ret {A} (a : A) : M A := fun _ l => (Return a, l).
Definition raise {A} (e : exn) : M A := fun _ l => (Raise e, l).
Definition bind {A B} (m : M A) (k : A -> M B) : M B :=
  fun env l =>
    match m env l with
    | (Return a, l') => k a env l'
    | (Raise e, l') => (Raise e, l')
    end.
(** [try: m except Exception as e: h e] *)
Definition try_except {A} (m : M A) (h : exn -> M A) : M A :=
  fun env l =>
    match m env l with
    | (Return a, l') => (Return a, l')
    | (Raise e, l') => h e env l'
    end.
Definition ask {A} (f : Env -> A) : M A := fun env l => (Return (f env), l).
(** A call into the environment that may raise. *)
Definition call {A} (f : Env -> outcome A) : M A := fun env l => (f env, l).
Definition logger (lv : level) (msg : string) : M unit :=
  fun _ l => (Return tt, (l ++ [(lv, msg)])%list).

Notation "x <- m ;; k" := (bind m (fun x => k))
  (at level 61, m at next level, right associativity).
Notation "m ;;; k" := (bind m (fun _ => k))
  (at level 61, right associativity).

(** The module constant [BASE_DIR], fixed when the module is loaded. *)
Variable BASE_DIR : string.

(** *** [secure_path] *)

(** The path that [secure_path] normalizes. *)
Definition absolute (path : string) : string :=
  if negb (PosixPath.isabs path) then PosixPath.join BASE_DIR path else path.

Definition secure_path (path : string) : M string :=
  let path := absolute path in
  let normalized_path := PosixPath.normpath path in
  if negb (PyStr.startswith normalized_path BASE_DIR) then
    logger WARNING ("Attempted access outside base directory: " ++ path) ;;;
    raise (ValueError ("Access denied: Path must be within " ++ BASE_DIR))
  else ret normalized_path.

(** [for x in l: s = body x s] *)
Fixpoint for_each {A S : Type} (l : list A) (body : A -> S -> M S) (s : S) : M S :=
  match l with
  | [] => ret s
  | x :: xs => s' <- body x s ;; for_each xs body s'
  end.

(** *** [read_file] *)

(** The [try] block of [read_file]. *)
Definition read_file_try (path : string) : M string :=
  secure_file_path <- secure_path path ;;
  is_file <- ask (fun env => os_path_isfile env secure_file_path) ;;
  (if negb is_file then
     logger ERROR ("File does not exist: " ++ secure_file_path) ;;;
     raise (ValueError ("File does not exist: " ++ path))
   else ret tt) ;;;
  content <- call (fun env => open_read env secure_file_path) ;;
  logger DEBUG ("Successfully read file at path: " ++ path) ;;;
  ret content.

Definition read_file (path : string) : M string :=
  logger DEBUG ("Attempting to read file at path: " ++ path) ;;;
  try_except (read_file_try path)
    (fun e =>
       logger ERROR ("Error reading file at path: " ++ path ++ " - " ++ str e) ;;;
       raise (ValueError ("Failed to read file: " ++ str e))).

(** *** [list_directory] *)

(** The body of [for item in os.listdir(secure_dir_path)]. *)
Definition list_directory_item (secure_dir_path : string) (include_hidden : bool)
    (item : string) (items : list item_info) : M (list item_info) :=
  if negb include_hidden && PyStr.startswith item "." then ret items
  else
    let item_path := PosixPath.join secure_dir_path item in
    is_dir <- ask (fun env => os_path_isdir env item_path) ;;
    let info := mk_item_info item (if is_dir then "directory" else "file")
                  (PyStr.startswith item ".") None in
    info <- (if negb is_dir then
               sz <- call (fun env => os_path_getsize env item_path) ;;
               ret (mk_item_info (item_name info) (item_type info)
                      (item_is_hidden info) (Some sz))
             else ret info) ;;
    ret (items ++ [info])%list.

(** The [try] block of [list_directory]. *)
Definition list_directory_try (path : string) (include_hidden : bool)
  : M (list item_info) :=
  secure_dir_path <- secure_path path ;;
  is_dir <- ask (fun env => os_path_isdir env secure_dir_path) ;;
  (if negb is_dir then
     logger ERROR ("Directory does not exist: " ++ secure_dir_path) ;;;
     raise (ValueError ("Directory does not exist: " ++ path))
   else ret tt) ;;;
  children <- call (fun env => os_listdir env secure_dir_path) ;;
  items <- for_each children
             (list_directory_item secure_dir_path include_hidden) [] ;;
  logger DEBUG ("Successfully listed directory at path: " ++ path) ;;;
  ret items.

Definition list_directory (path : string) (include_hidden : bool)
  : M (list item_info) :=
  logger DEBUG ("Attempting to list directory at path: " ++ path) ;;;
  try_except (list_directory_try path include_hidden)
    (fun e =>
       logger ERROR ("Error listing directory at path: " ++ path ++ " - " ++ str e) ;;;
       raise (ValueError ("Failed to list directory: " ++ str e))).

(** *** [search_files] *)

(** [enumerate(l)], counting from [i]. *)
Fixpoint enumerate_from {A : Type} (i : Z) (l : list A) : list (Z * A) :=
  match l with
  | [] => []
  | x :: xs => (i, x) :: enumerate_from (i + 1) xs
  end.

(** The loop [for i, line in enumerate(content.splitlines())]. *)
Definition scan_lines (env : Env) (rx : regex) (content : string)
  : list match_info :=
  fold_left
    (fun matches (il : Z * string) =>
       let (i, line) := il in
       if re_search env rx line
       then (matches ++ [mk_match_info (i + 1) (strip env line)])%list
       else matches)
    (enumerate_from 0 (splitlines env content)) [].

(** Python truth value of an [Optional[str]]. *)
Definition truthy (s : option string) : option string :=
  match s with
  | Some r => if r =? "" then None else Some r
  | None => None
  end.

(** The body of [for file_path in glob.glob(...)]. *)
Definition search_files_file (content_regex : option string)
    (file_path : string) (matching_files : list search_result)
  : M (list search_result) :=
  is_file <- ask (fun env => os_path_isfile env file_path) ;;
  if is_file then
    rel <- call (fun env => PosixPath.relpath (os_getcwd env) file_path BASE_DIR) ;;
    sz <- call (fun env => os_path_getsize env file_path) ;;
    let result := mk_search_result rel sz None in
    match truthy content_regex with
    | Some pattern =>
        try_except
          (content <- call (fun env => open_read env file_path) ;;
           rx <- call (fun env => re_compile env pattern) ;;
           matches <- ask (fun env => scan_lines env rx content) ;;
           if negb (PosixPath.is_nil matches) then
             ret (matching_files
                    ++ [mk_search_result (result_path result) (result_size result)
                          (Some matches)])%list
           else ret matching_files)
          (fun e =>
             logger WARNING ("Could not search content in " ++ file_path
                             ++ ": " ++ str e) ;;;
             ret matching_files)
    | None => ret (matching_files ++ [result])%list
    end
  else ret matching_files.

(** The glob pattern handed to [glob.glob]; [os.path.join] of three
    arguments joins from the left. *)
Definition search_pattern (secure_search_path pattern : string) (recursive : bool)
  : string :=
  if recursive
  then PosixPath.join (PosixPath.join secure_search_path "**") pattern
  else PosixPath.join secure_search_path pattern.

(** The [try] block of [search_files]. *)
Definition search_files_try (pattern search_path : string) (recursive : bool)
    (content_regex : option string) : M (list search_result) :=
  secure_search_path <- secure_path search_path ;;
  is_dir <- ask (fun env => os_path_isdir env secure_search_path) ;;
  (if negb is_dir then
     logger ERROR ("Search path does not exist: " ++ secure_search_path) ;;;
     raise (ValueError ("Search path does not exist: " ++ search_path))
   else ret tt) ;;;
  files <- ask (fun env => glob_glob env
                  (search_pattern secure_search_path pattern recursive) recursive) ;;
  matching_files <- for_each files (search_files_file content_regex) [] ;;
  logger DEBUG ("Found " ++ PyStr.of_Z (Z.of_nat (List.length matching_files))
                ++ " matching files") ;;;
  ret matching_files.

Definition search_files (pattern search_path : string) (recursive : bool)
    (content_regex : option string) : M (list search_result) :=
  logger DEBUG ("Searching for files matching pattern: " ++ pattern ++ " in "
                ++ search_path) ;;;
  try_except (search_files_try pattern search_path recursive content_regex)
    (fun e =>
       logger ERROR ("Error searching files: " ++ str e) ;;;
       raise (ValueError ("Failed to search files: " ++ str e))).

(** *** [ChangeHandler.on_any_event] and [get_recent_changes] *)

(** The value of the ["time"] key. *)
Definition event_time (env : Env) (ev : fs_event) : outcome (option timestamp) :=
  if os_path_exists env (src_path ev) then
    match os_path_getmtime env (src_path ev) with
    | Return t => Return (Some t)
    | Raise e => Raise e
    end
  else Return None.

(** The dictionary [change] built for an event. *)
Definition make_change (env : Env) (ev : fs_event) : outcome change :=
  match PosixPath.relpath (os_getcwd env) (src_path ev) BASE_DIR with
  | Raise e => Raise e
  | Return p =>
      match event_time env ev with
      | Raise e => Raise e
      | Return t => Return (mk_change p (event_type ev) t)
      end
  end.

(** The handler, as a transition of the module-level list [file_changes];
    [pop(0)] of a non-empty list is [tl]. *)
Definition on_any_event (env : Env) (ev : fs_event) (file_changes : list change)
  : outcome unit * list change :=
  if is_directory ev then (Return tt, file_changes)
  else
    match make_change env ev with
    | Raise e => (Raise e, file_changes)
    | Return c =>
        let file_changes := (file_changes ++ [c])%list in
        if (100 <? List.length file_changes)%nat
        then (Return tt, tl file_changes)
        else (Return tt, file_changes)
    end.

(** The observer delivers events one at a time, each in the filesystem of
    its moment. *)
Definition deliver (file_changes : list change) (evs : list (Env * fs_event))
  : list change :=
  fold_left (fun fc ee => snd (on_any_event (fst ee) (snd ee) fc)) evs file_changes.

End Runtime.

Arguments mkEnv {regex timestamp}.
Arguments os_path_isfile {regex timestamp} e.
Arguments os_path_isdir {regex timestamp} e.
Arguments os_path_exists {regex timestamp} e.
Arguments os_listdir {regex timestamp} e.
Arguments os_path_getsize {regex timestamp} e.
Arguments os_path_getmtime {regex timestamp} e.
Arguments os_getcwd {regex timestamp} e.
Arguments open_read {regex timestamp} e.
Arguments glob_glob {regex timestamp} e.
Arguments re_compile {regex timestamp} e.
Arguments re_search {regex timestamp} e.
Arguments splitlines {regex timestamp} e.
Arguments strip {regex timestamp} e.
Arguments change_path {timestamp} c.
Arguments change_type {timestamp} c.
Arguments change_time {timestamp} c.
Arguments mk_change {timestamp}.
Arguments absolute BASE_DIR path : simpl never.
Arguments secure_path {regex timestamp} BASE_DIR path.
Arguments read_file {regex timestamp} BASE_DIR path.
Arguments read_file_try {regex timestamp} BASE_DIR path.
Arguments list_directory_try {regex timestamp} BASE_DIR path include_hidden.
Arguments search_files_try {regex timestamp} BASE_DIR pattern search_path recursive content_regex.
Arguments list_directory {regex timestamp} BASE_DIR path include_hidden.
Arguments list_directory_item {regex timestamp} secure_dir_path include_hidden item items.
Arguments search_files {regex timestamp} BASE_DIR pattern search_path recursive content_regex.
Arguments search_files_file {regex timestamp} BASE_DIR content_regex file_path matching_files.
Arguments scan_lines {regex timestamp} env rx content.
Arguments on_any_event {regex timestamp} BASE_DIR env ev file_changes.
Arguments make_change {regex timestamp} BASE_DIR env ev.
Arguments deliver {regex timestamp} BASE_DIR file_changes evs.
Arguments for_each {regex timestamp A S} l body s.

(** ** Containment of paths, by components

    The notion of "inside the base directory" that the path check is meant to
    enforce: a path is its root (no, one or two slashes) and its sequence of
    non-empty names, and a path is within a base when both have the same root
    and the names of the base are a prefix of the names of the path. *)

Module Containment.

Definition root (p : string) : string :=
  PyStr.repeat PosixPath.sep (PosixPath.initial_slashes p).

Definition names (p : string) : list string :=
  filter (fun c => negb (c =? "")) (PyStr.split PosixPath.sepc p).

Fixpoint is_prefix (l1 l2 : list string) : bool :=
  match l1, l2 with
  | [], _ => true
  | x :: l1', y :: l2' => (x =? y) && is_prefix l1' l2'
  | _ :: _, [] => false
  end.

Definition within (base p : string) : bool :=
  (root p =? root base) && is_prefix (names base) (names p).

Definition strictly_under (base p : string) : bool :=
  within base p && (List.length (names base) <? List.length (names p))%nat.

End Containment.

(** ** A concrete environment

    A small tree under [/srv/data], a literal-substring stand-in for [re]
    whose [compile] rejects an unbalanced parenthesis, and a [glob] that knows
    the text files of the tree.  Used to run the tools on concrete calls. *)

Module Example.

Inductive node : Type :=
| File (text : outcome string) (size : Z)
| Directory (children : list string).

Definition tree : Type := list (string * node).

Fixpoint lookup (t : tree) (p : string) : option node :=
  match t with
  | [] => None
  | (q, n) :: t' => if q =? p then Some n else lookup t' p
  end.

Fixpoint find (needle hay : string) : bool :=
  String.prefix needle hay
  || match hay with
     | EmptyString => false
     | String _ hay' => find needle hay'
     end.

Definition compile (p : string) : outcome string :=
  if PyStr.contains "("%char p && negb (PyStr.contains ")"%char p)
  then Raise (re_error "missing ), unterminated subpattern at position 0")
  else Return p.

(** Lines ended by a line feed. *)
Definition lines (s : string) : list string :=
  match rev (PyStr.split "010"%char s) with
  | EmptyString :: l => rev l
  | l => rev l
  end.

Fixpoint lstrip (s : string) : string :=
  match s with
  | String " " s' => lstrip s'
  | _ => s
  end.

Fixpoint rstrip (s : string) : string :=
  match s with
  | EmptyString => EmptyString
  | String a s' =>
      match rstrip s' with
      | EmptyString => if Ascii.eqb a " " then EmptyString else String a EmptyString
      | r => String a r
      end
  end.

Definition env_of (t : tree) (globbed : string -> bool -> list string)
  : Env string Z :=
  mkEnv
    (fun p => match lookup t p with Some (File _ _) => true | _ => false end)
    (fun p => match lookup t p with Some (Directory _) => true | _ => false end)
    (fun p => match lookup t p with Some _ => true | None => false end)
    (fun p => match lookup t p with
              | Some (Directory l) => Return l
              | Some (File _ _) => Raise (OSError ("[Errno 20] Not a directory: " ++ p))
              | None => Raise (OSError ("[Errno 2] No such file or directory: " ++ p))
              end)
    (fun p => match lookup t p with
              | Some (File _ n) => Return n
              | Some (Directory _) => Return 4096%Z
              | None => Raise (OSError ("[Errno 2] No such file or directory: " ++ p))
              end)
    (fun p => match lookup t p with
              | Some _ => Return 1700000000%Z
              | None => Raise (OSError ("[Errno 2] No such file or directory: " ++ p))
              end)
    "/srv/data"
    (fun p => match lookup t p with
              | Some (File text _) => text
              | Some (Directory _) => Raise (OSError ("[Errno 21] Is a directory: " ++ p))
              | None => Raise (OSError ("[Errno 2] No such file or directory: " ++ p))
              end)
    globbed
    compile
    (fun rx line => find rx line)
    lines
    (fun s => rstrip (lstrip s)).

Definition nl : string := String "010"%char EmptyString.

Definition data : tree :=
  [ ("/srv/data", Directory ["a.txt"; ".hidden"; "sub"]);
    ("/srv/data/a.txt", File (Return ("hello" ++ nl ++ "  needle here " ++ nl ++ "bye" ++ nl)) 24);
    ("/srv/data/.hidden", File (Raise (UnicodeDecodeError "invalid start byte")) 3);
    ("/srv/data/sub", Directory ["b.txt"; "empty.txt"]);
    ("/srv/data/sub/b.txt", File (Return "nothing") 7);
    ("/srv/data/sub/empty.txt", File (Return "") 0) ].

Definition txt_glob (pattern : string) (recursive : bool) : list string :=
  if (pattern =? "/srv/data/**/*.txt") && recursive
  then ["/srv/data/a.txt"; "/srv/data/sub/b.txt"; "/srv/data/sub/empty.txt"]
  else [].

Definition env : Env string Z := env_of data txt_glob.

End Example.

(** ** Notions used to state the properties *)

(** A component that [normpath] keeps: not empty and free of separators. *)
Definition name_ok (w : string) : Prop :=
  w <> "" /\ PyStr.contains PosixPath.sepc w = false.

(** The entries that the loop of [list_directory] does not skip. *)
Definition listed (include_hidden : bool) (item : string) : bool :=
  include_hidden || negb (PyStr.startswith item ".").

(** The [n] most recent elements of a list that grows at its end. *)
Definition lastn {A : Type} (n : nat) (xs : list A) : list A :=
  skipn (List.length xs - n) xs.

Section Notions.
Context {regex timestamp : Type}.
Implicit Types (env : Env regex timestamp).

(** The lines the regex finds, with their positions counted from [i]. *)
Definition found_from env (rx : regex) (i : Z) (lines : list string)
  : list (Z * string) :=
  filter (fun il => re_search env rx (snd il)) (enumerate_from i lines).

(** The match reported for a found line. *)
Definition to_match env (il : Z * string) : match_info :=
  mk_match_info (fst il + 1) (strip env (snd il)).

(** What a globbed path contributes to [matching_files]: nothing, one
    entry, or an error that ends the search.  A pure reading of the body of
    the loop of [search_files], related to it by
    [search_files_file_result]. *)
Definition contribution (B : string) (cr : option string) env (f : string)
  : outcome (option search_result) :=
  if os_path_isfile env f then
    match PosixPath.relpath (os_getcwd env) f B with
    | Raise e => Raise e
    | Return rel =>
        match os_path_getsize env f with
        | Raise e => Raise e
        | Return sz =>
            match truthy cr with
            | None => Return (Some (mk_search_result rel sz None))
            | Some pat =>
                match open_read env f with
                | Raise _ => Return None
                | Return text =>
                    match re_compile env pat with
                    | Raise _ => Return None
                    | Return rx =>
                        match scan_lines env rx text with
                        | [] => Return None
                        | ms => Return (Some (mk_search_result rel sz (Some ms)))
                        end
                    end
                end
            end
        end
    end
  else Return None.

(** Whether a path adds an entry. *)
Definition contributes (B : string) (cr : option string) env (f : string) : bool :=
  match contribution B cr env f with
  | Return (Some _) => true
  | _ => false
  end.




(** The records of a sequence of events, each delivered in the filesystem
    of its moment, when every event is a file event whose record can be
    built. *)
Fixpoint records (B : string) (evs : list (Env regex timestamp * fs_event))
  : option (list (change timestamp)) :=
  match evs with
  | [] => Some []
  | (env, ev) :: evs' =>
      if is_directory ev then None
      else match make_change B env ev, records B evs' with
           | Return c, Some cs => Some (c :: cs)
           | _, _ => None
           end
  end.

(** The same as a relation: [cs] are the records of [evs], in order. *)
Definition recorded (B : string) (evs : list (Env regex timestamp * fs_event))
    (cs : list (change timestamp)) : Prop :=
  Forall2 (fun ee c => is_directory (snd ee) = false /\
                       make_change B (fst ee) (snd ee) = Return c) evs cs.

End Notions.

(** 101 modifications of distinct files under [/srv/data]. *)
Definition hundred_and_one : list (Env string Z * fs_event) :=
  map (fun i => (Example.env,
                 mk_fs_event ("/srv/data/f" ++ PyStr.of_Z (Z.of_nat i)) "modified" false))
      (seq 1 101).

(** Two file events around an event on a directory. *)
Definition with_directory : list (Env string Z * fs_event) :=
  [ (Example.env, mk_fs_event "/srv/data/a.txt" "modified" false);
    (Example.env, mk_fs_event "/srv/data/sub" "modified" true);
    (Example.env, mk_fs_event "/srv/data/gone.txt" "deleted" false) ].

(** A name that [normpath] leaves in place in an absolute path: a kept
    component other than [.] and [..]. *)
Definition clean (w : string) : Prop := name_ok w /\ w <> "." /\ w <> "..".

(** The entry that [list_directory] builds for a child it does not skip: a
    pure reading of the body of its loop, related to it by
    [list_directory_loop_entries]. *)
Definition entry_of {regex timestamp : Type} (env : Env regex timestamp)
    (secure_dir_path item : string) : outcome item_info :=
  if os_path_isdir env (PosixPath.join secure_dir_path item)
  then Return (mk_item_info item "directory" (PyStr.startswith item ".") None)
  else match os_path_getsize env (PosixPath.join secure_dir_path item) with
       | Return z => Return (mk_item_info item "file" (PyStr.startswith item ".") (Some z))
       | Raise e => Raise e
       end.

(** ** Facts about strings and paths *)

Section PathFacts.
Import PyStr PosixPath Containment.

Lemma prefix_app (s t : string) : String.prefix s (s ++ t) = true.
Proof.
  induction s as [|a s IH]; simpl.
  - now destruct t.
  - destruct (ascii_dec a a) as [_|ne]; [exact IH | now elim ne].
Qed.

Lemma app_assoc_str (a b c : string) : (a ++ b) ++ c = a ++ b ++ c.
Proof. induction a; simpl; congruence. Qed.

Lemma startswith_app (s t : string) : startswith (s ++ t) s = true.
Proof. apply prefix_app. Qed.

Lemma append_nil (s : string) : s ++ "" = s.
Proof. induction s; simpl; congruence. Qed.

Lemma startswith_refl (s : string) : startswith s s = true.
Proof. rewrite <- (append_nil s) at 1. apply prefix_app. Qed.

Lemma startswith_app_app (s t u : string) : startswith (s ++ t ++ u) (s ++ t) = true.
Proof. rewrite <- app_assoc_str. apply prefix_app. Qed.

Lemma split_no_sep (c : ascii) (s : string) :
  contains c s = false -> split c s = [s].
Proof.
  induction s as [|a s IH]; simpl; [reflexivity|].
  intros H. apply orb_false_iff in H as [Ha Hs].
  rewrite Ha, (IH Hs). reflexivity.
Qed.

Lemma split_app_sep (c : ascii) (s t : string) :
  contains c s = false -> split c (s ++ String c t) = s :: split c t.
Proof.
  induction s as [|a s IH]; simpl.
  - intros _. now rewrite Ascii.eqb_refl.
  - intros H. apply orb_false_iff in H as [Ha Hs].
    rewrite Ha, (IH Hs). reflexivity.
Qed.

Lemma split_components (c : ascii) (s : string) :
  Forall (fun w => contains c w = false) (split c s).
Proof.
  induction s as [|a s IH]; simpl.
  - constructor; [reflexivity | constructor].
  - destruct (Ascii.eqb a c) eqn:E.
    + constructor; [reflexivity | exact IH].
    + destruct (split c s) as [|w ws].
      * constructor; [simpl; now rewrite E | constructor].
      * inversion IH; subst. constructor; [simpl; now rewrite E | assumption].
Qed.

Lemma Forall_removelast {A} (P : A -> Prop) (l : list A) :
  Forall P l -> Forall P (removelast l).
Proof.
  induction 1 as [|x l Hx Hl IH]; simpl; [constructor|].
  destruct l; [constructor | constructor; assumption].
Qed.

Lemma normpath_step_ok (k : nat) (acc : list string) (w : string) :
  contains sepc w = false -> Forall name_ok acc ->
  Forall name_ok (normpath_step k acc w).
Proof.
  intros Hw Hacc. unfold normpath_step.
  destruct (w =? "") eqn:E; simpl; [assumption|].
  destruct (w =? "."); simpl; [assumption|].
  assert (Hok : name_ok w) by (split; [now apply String.eqb_neq | assumption]).
  assert (Happ : Forall name_ok (acc ++ [w])%list)
    by (apply Forall_app; split; [assumption | now constructor]).
  destruct (negb (w =? "..") || (k =? 0)%nat && is_nil acc
            || negb (is_nil acc) && (last acc "" =? "..")); [assumption|].
  destruct (negb (is_nil acc)); [now apply Forall_removelast | assumption].
Qed.

Lemma normpath_loop_ok (k : nat) (comps acc : list string) :
  Forall (fun w => contains sepc w = false) comps -> Forall name_ok acc ->
  Forall name_ok (fold_left (normpath_step k) comps acc).
Proof.
  intros Hc. revert acc.
  induction Hc as [|w comps Hw _ IH]; simpl; intros acc Hacc; [assumption|].
  apply IH. now apply normpath_step_ok.
Qed.

Lemma names_join (l : list string) :
  Forall name_ok l -> names (PyStr.join sep l) = l.
Proof.
  unfold names, PyStr.join.
  induction 1 as [|w l [Hne Hw] Hl IH]; [reflexivity|].
  destruct l as [|w' l'].
  - simpl. rewrite (split_no_sep _ _ Hw). simpl.
    apply String.eqb_neq in Hne. now rewrite Hne.
  - change (String.concat sep (w :: w' :: l')) with (w ++ String sepc (String.concat sep (w' :: l'))).
    rewrite (split_app_sep _ _ _ Hw). simpl filter.
    apply String.eqb_neq in Hne. rewrite Hne. simpl negb. cbv iota.
    f_equal. exact IH.
Qed.

Lemma startswith_sep_cons (a : ascii) (w : string) :
  startswith (String a w) sep = Ascii.eqb a sepc.
Proof.
  unfold startswith, sep. cbn [String.prefix].
  destruct (ascii_dec "/" a) as [e|ne].
  - subst a. now destruct w.
  - symmetry. apply Ascii.eqb_neq. unfold sepc. congruence.
Qed.

Lemma join_not_abs (l : list string) :
  Forall name_ok l -> startswith (PyStr.join sep l) sep = false.
Proof.
  unfold PyStr.join. intros H. destruct H as [|w l [Hne Hw] Hl]; [reflexivity|].
  destruct w as [|a w]; [now elim Hne|].
  simpl in Hw. apply orb_false_iff in Hw as [Ha _].
  destruct l; cbn [String.concat String.append]; now rewrite startswith_sep_cons.
Qed.

Lemma join_app (l1 l2 : list string) :
  l1 <> [] -> l2 <> [] ->
  PyStr.join sep (l1 ++ l2) = PyStr.join sep l1 ++ sep ++ PyStr.join sep l2.
Proof.
  unfold PyStr.join. intros H1 H2.
  induction l1 as [|x l1 IH]; [now elim H1|].
  destruct l1 as [|y l1].
  - simpl. destruct l2; [now elim H2 | reflexivity].
  - change ((x :: y :: l1) ++ l2)%list with (x :: y :: (l1 ++ l2))%list.
    change (String.concat sep (x :: y :: (l1 ++ l2)%list))
      with (x ++ sep ++ String.concat sep ((y :: l1) ++ l2)%list).
    rewrite IH by discriminate.
    change (String.concat sep (x :: y :: l1)) with (x ++ sep ++ String.concat sep (y :: l1)).
    now rewrite !app_assoc_str.
Qed.

Lemma startswith_cons (a b : ascii) (s t : string) :
  startswith (String a s) (String b t) = Ascii.eqb a b && startswith s t.
Proof.
  unfold startswith. cbn [String.prefix].
  destruct (ascii_dec b a) as [e|ne].
  - subst. now rewrite Ascii.eqb_refl.
  - assert (E : Ascii.eqb a b = false) by (apply Ascii.eqb_neq; congruence).
    now rewrite E.
Qed.

Lemma startswith_nil (s : string) : startswith s "" = true.
Proof. now destruct s. Qed.

Lemma is_prefix_app (l1 l2 : list string) :
  is_prefix l1 l2 = true -> exists rest, l2 = (l1 ++ rest)%list.
Proof.
  revert l2. induction l1 as [|x l1 IH]; intros l2 H.
  - now exists l2.
  - destruct l2 as [|y l2]; [discriminate|]. simpl in H.
    apply andb_true_iff in H as [Hxy Hp]. apply String.eqb_eq in Hxy. subst y.
    destruct (IH _ Hp) as [rest ->]. now exists rest.
Qed.

(** The shape of what [normpath] returns for an absolute path: one or two
    slashes, then the kept names joined by single slashes. *)
Lemma normpath_abs (p : string) :
  isabs p = true ->
  exists k nc, (k = 1 \/ k = 2) /\ Forall name_ok nc /\
               normpath p = repeat sep k ++ PyStr.join sep nc.
Proof.
  intros Habs. destruct p as [|a p]; [discriminate|].
  exists (initial_slashes (String a p)),
         (fold_left (normpath_step (initial_slashes (String a p)))
                    (split sepc (String a p)) []).
  assert (Hk : initial_slashes (String a p) = 1 \/ initial_slashes (String a p) = 2).
  { unfold initial_slashes. unfold isabs in Habs. rewrite Habs.
    destruct (_ && _); auto. }
  split; [exact Hk|]. split.
  - apply normpath_loop_ok; [apply split_components | constructor].
  - unfold normpath. cbn [String.eqb].
    destruct Hk as [-> | ->]; reflexivity.
Qed.

Lemma root_shape (k : nat) (nc : list string) :
  k = 1 \/ k = 2 -> Forall name_ok nc ->
  root (repeat sep k ++ PyStr.join sep nc) = repeat sep k.
Proof.
  intros Hk Hnc. unfold root. f_equal.
  pose proof (join_not_abs _ Hnc) as Hj.
  unfold initial_slashes.
  unfold sep in *.
  destruct Hk as [-> | ->]; cbn [repeat String.append];
    rewrite !startswith_cons, ?Hj, ?startswith_nil; reflexivity.
Qed.

Lemma names_shape (k : nat) (x : string) : names (repeat sep k ++ x) = names x.
Proof. induction k as [|k IH]; [reflexivity | exact IH]. Qed.

Lemma join_abs (a b : string) : isabs a = true -> isabs (join a b) = true.
Proof.
  intros Ha. unfold join. destruct (startswith b sep) eqn:Hb; [exact Hb|].
  destruct a as [|c a]; [discriminate|].
  unfold isabs in *. rewrite startswith_sep_cons in Ha.
  destruct (_ || _); cbn [String.append]; now rewrite startswith_sep_cons.
Qed.

Lemma absolute_isabs (base p : string) :
  isabs base = true -> isabs (absolute base p) = true.
Proof.
  intros Hb. unfold absolute. destruct (isabs p) eqn:Hp; simpl; [exact Hp|].
  now apply join_abs.
Qed.

(** A normalized absolute path is its root followed by its names. *)
Lemma normalized_parts (p : string) :
  isabs p = true ->
  Forall name_ok (names (normpath p)) /\
  normpath p = root (normpath p) ++ PyStr.join sep (names (normpath p)).
Proof.
  intros Habs. destruct (normpath_abs p Habs) as (k & nc & Hk & Hnc & ->).
  rewrite root_shape, names_shape, names_join by assumption. now split.
Qed.

(** The component-wise notion implies the string-prefix test of the code,
    for a normalized absolute base and a normalized absolute path. *)
Lemma within_startswith (base p : string) :
  isabs base = true -> normpath base = base -> isabs p = true ->
  within base (normpath p) = true ->
  startswith (normpath p) base = true /\
  (names base <> [] -> strictly_under base (normpath p) = true ->
   startswith (normpath p) (base ++ sep) = true).
Proof.
  intros Hb Hnb Hp Hw.
  destruct (normalized_parts base Hb) as [_ Eb]. rewrite Hnb in Eb.
  destruct (normalized_parts p Hp) as [_ Ep].
  unfold within in Hw. apply andb_true_iff in Hw as [Hr Hn].
  apply String.eqb_eq in Hr. apply is_prefix_app in Hn as [rest Hn].
  assert (Hrest : strictly_under base (normpath p) = true -> rest <> []).
  { unfold strictly_under. rewrite Hn, length_app. intros H.
    apply andb_true_iff in H as [_ H]. apply Nat.ltb_lt in H.
    destruct rest; [simpl in H; lia | discriminate]. }
  rewrite Hr, Hn in Ep. rewrite Ep in Hrest |- *. clear Ep Hn Hr Hb Hnb Hp.
  set (r := root base) in *. set (nb := names base) in *. clearbody r nb.
  subst base. split.
  - destruct nb as [|b bs].
    + cbn [PyStr.join String.concat app]. rewrite append_nil. apply startswith_app.
    + destruct rest as [|x rest].
      * rewrite app_nil_r. apply startswith_refl.
      * rewrite join_app by discriminate. apply startswith_app_app.
  - intros Hne Hs. specialize (Hrest Hs).
    rewrite join_app by assumption.
    rewrite <- !app_assoc_str. apply prefix_app.
Qed.

End PathFacts.

(** ** Running the monad *)

Ltac run :=
  unfold bind, try_except, ret, raise, logger, ask, call; cbn [fst snd].

(** ** The path check *)

Section SecurePath.
Import PyStr PosixPath Containment.
Context {regex timestamp : Type}.
Implicit Types (env : Env regex timestamp) (l : log).

(** [secure_path] in one step: the prefix test decides, the log grows by
    one warning exactly when the test fails. *)
Lemma secure_path_run (B P : string) env l :
  secure_path B P env l =
  if startswith (normpath (absolute B P)) B
  then (Return (normpath (absolute B P)), l)
  else (Raise (ValueError ("Access denied: Path must be within " ++ B)),
        List.app l [(WARNING, "Attempted access outside base directory: "
                              ++ absolute B P)]).
Proof.
  unfold secure_path. destruct (startswith _ B); reflexivity.
Qed.

Lemma secure_path_result_any_log (B P : string) env l1 l2 :
  fst (secure_path B P env l1) = fst (secure_path B P env l2).
Proof.
  rewrite !secure_path_run. destruct (startswith _ B); reflexivity.
Qed.

Lemma secure_path_Return (B P s : string) env l :
  fst (secure_path B P env l) = Return s ->
  forall l', secure_path B P env l' = (Return s, l').
Proof.
  intros H l'. rewrite secure_path_run in *.
  destruct (startswith _ B); [|discriminate].
  cbn in H. congruence.
Qed.

Lemma secure_path_Raise (B P : string) (e : exn) env l :
  fst (secure_path B P env l) = Raise e ->
  e = ValueError ("Access denied: Path must be within " ++ B) /\
  forall l', secure_path B P env l' =
             (Raise e, List.app l' [(WARNING, "Attempted access outside base directory: "
                                             ++ absolute B P)]).
Proof.
  intros H. rewrite secure_path_run in H.
  destruct (startswith _ B) eqn:E; [discriminate|].
  cbn in H. injection H as <-. split; [reflexivity|].
  intros l'. rewrite secure_path_run, E. reflexivity.
Qed.

Lemma secure_path_startswith (B P s : string) env l :
  fst (secure_path B P env l) = Return s -> startswith s B = true.
Proof.
  rewrite secure_path_run. destruct (startswith _ B) eqn:E; [|discriminate].
  cbn. congruence.
Qed.

(** C1 (the code departs from the claim): with base [/data], the sibling
    path [/data2/secret] is not within the base by components, yet
    [secure_path] accepts it and returns it, in every environment, without
    logging a warning. *)
Theorem secure_path_sibling_prefix_accepted :
  within "/data" (normpath (absolute "/data" "/data2/secret")) = false /\
  forall env l, secure_path "/data" "/data2/secret" env l
                = (Return "/data2/secret", l).
Proof.
  split; [reflexivity|]. intros env l. now rewrite secure_path_run.
Qed.

(** C2, as stated, fails when the base directory is the root: [/etc] lies
    strictly under [/], [secure_path] returns [/etc], and [/etc] does not
    start with the base string followed by a separator. *)
Lemma secure_path_root_base_no_separator :
  ~ (strictly_under "/" (normpath (absolute "/" "/etc")) = true ->
     exists r, fst (secure_path "/" "/etc" Example.env []) = Return r /\
               startswith r ("/" ++ sep) = true).
Proof.
  intros H. destruct (H eq_refl) as (r & Hr & Hs).
  cbv in Hr. injection Hr as <-. discriminate Hs.
Qed.

(** C2 (amended): for a base directory that is a normalized absolute path,
    every candidate whose normalized form lies strictly under the base is
    accepted; the normalized path is returned, the log is untouched, the
    result starts with the base string, and, unless the base is a root, with
    the base string followed by a separator. *)
Theorem secure_path_strictly_under (B P : string) env l :
  isabs B = true -> normpath B = B ->
  strictly_under B (normpath (absolute B P)) = true ->
  secure_path B P env l = (Return (normpath (absolute B P)), l) /\
  startswith (normpath (absolute B P)) B = true /\
  (names B <> [] -> startswith (normpath (absolute B P)) (B ++ sep) = true).
Proof.
  intros Habs Hnorm Hunder.
  assert (Hin : within B (normpath (absolute B P)) = true).
  { unfold strictly_under in Hunder. now apply andb_true_iff in Hunder as [? _]. }
  destruct (within_startswith B (absolute B P) Habs Hnorm
              (absolute_isabs B P Habs) Hin) as [Hpre Hsep].
  split; [|split].
  - now rewrite secure_path_run, Hpre.
  - exact Hpre.
  - intros Hne. now apply Hsep.
Qed.

(** C10: the outcome of [secure_path] is a function of the candidate and the
    base directory alone: it is the same in any two environments and after
    any two logs, and the environment is never consulted; it is either the
    normalized path or the access-denied error. *)
Theorem secure_path_deterministic (B P : string) env1 env2 l1 l2 :
  fst (secure_path B P env1 l1) = fst (secure_path B P env2 l2) /\
  (fst (secure_path B P env1 l1) = Return (normpath (absolute B P)) \/
   fst (secure_path B P env1 l1)
     = Raise (ValueError ("Access denied: Path must be within " ++ B))).
Proof.
  rewrite !secure_path_run.
  destruct (startswith _ B); cbn; auto.
Qed.

End SecurePath.

Lemma secure_path_strictly_under_witness :
  let B := "/srv/data" in
  let P := "sub/../sub/./b.txt" in
  secure_path (regex:=string) (timestamp:=Z) B P Example.env []
    = (Return (PosixPath.normpath (absolute B P)), []) /\
  PyStr.startswith (PosixPath.normpath (absolute B P)) B = true /\
  (Containment.names B <> [] -> PyStr.startswith (PosixPath.normpath (absolute B P)) (B ++ PosixPath.sep) = true).
Proof.
  apply (secure_path_strictly_under "/srv/data" "sub/../sub/./b.txt");
    reflexivity.
Defined.

(** ** Reading a file *)

Section ReadFile.
Context {regex timestamp : Type}.
Implicit Types (env : Env regex timestamp) (l : log).

(** What the [try] block of [read_file] returns or raises. *)
Lemma read_file_try_result (B path : string) env l :
  fst (read_file_try B path env l) =
  match fst (secure_path B path env l) with
  | Raise e => Raise e
  | Return s =>
      if os_path_isfile env s then open_read env s
      else Raise (ValueError ("File does not exist: " ++ path))
  end.
Proof.
  unfold read_file_try. run. rewrite secure_path_run.
  destruct (PyStr.startswith _ B); cbn; [|reflexivity].
  destruct (os_path_isfile env _); cbn; [|reflexivity].
  destruct (open_read env _); reflexivity.
Qed.

(** The handler of [read_file] wraps whatever the block raises. *)
Lemma read_file_result (B path : string) env l :
  fst (read_file B path env l) =
  match fst (read_file_try B path env
               (List.app l [(DEBUG, "Attempting to read file at path: " ++ path)])) with
  | Return c => Return c
  | Raise e => Raise (ValueError ("Failed to read file: " ++ str e))
  end.
Proof.
  unfold read_file. run.
  destruct (read_file_try B path env _) as [[c|e] l']; reflexivity.
Qed.

(** C6: for a path that [secure_path] accepts as [s]: when [s] is not a
    regular file (a directory included) the call fails with a "does not
    exist" error; when opening or decoding [s] fails, it fails with a read
    error carrying the cause; otherwise it returns the whole decoded text. *)
Theorem read_file_outcomes (B path s : string) env l :
  fst (secure_path B path env l) = Return s ->
  (os_path_isfile env s = false ->
   fst (read_file B path env l)
   = Raise (ValueError ("Failed to read file: File does not exist: " ++ path))) /\
  (forall e, os_path_isfile env s = true -> open_read env s = Raise e ->
   fst (read_file B path env l)
   = Raise (ValueError ("Failed to read file: " ++ str e))) /\
  (forall text, os_path_isfile env s = true -> open_read env s = Return text ->
   fst (read_file B path env l) = Return text).
Proof.
  intros Hs.
  assert (Hs' : forall l', fst (secure_path B path env l') = Return s)
    by (intros l'; now rewrite (secure_path_Return _ _ _ _ _ Hs)).
  repeat split; intros; rewrite read_file_result, read_file_try_result, Hs'.
  - now rewrite H.
  - now rewrite H, H0.
  - now rewrite H, H0.
Qed.

(** C9: whenever [read_file] fails, the error is a [ValueError] whose
    message is ["Failed to read file: "] followed by the message of the
    error raised inside the [try] block; in particular the access-denied
    error of [secure_path] and the "does not exist" error reach the caller
    only inside such a message. *)
Theorem read_file_failure_is_wrapped (B path : string) (e : exn) env l :
  fst (read_file B path env l) = Raise e ->
  exists inner,
    fst (read_file_try B path env
           (List.app l [(DEBUG, "Attempting to read file at path: " ++ path)]))
      = Raise inner /\
    e = ValueError ("Failed to read file: " ++ str inner) /\
    (forall d, fst (secure_path B path env l) = Raise d ->
               inner = ValueError ("Access denied: Path must be within " ++ B)) /\
    (forall s, fst (secure_path B path env l) = Return s ->
               os_path_isfile env s = false ->
               inner = ValueError ("File does not exist: " ++ path)).
Proof.
  intros H. rewrite read_file_result in H.
  destruct (fst (read_file_try B path env _)) as [c|inner] eqn:E; [discriminate|].
  exists inner. split; [reflexivity|]. split; [congruence|].
  rewrite read_file_try_result in E. split.
  - intros d Hd. destruct (secure_path_Raise _ _ _ _ _ Hd) as [-> Hall].
    rewrite Hall in E. cbn [fst] in E. congruence.
  - intros s Hs Hf. rewrite (secure_path_Return _ _ _ _ _ Hs) in E. cbn [fst] in E.
    rewrite Hf in E. congruence.
Qed.

End ReadFile.

Lemma read_file_outcomes_witness :
  fst (read_file "/srv/data" "sub" Example.env [])
  = Raise (ValueError "Failed to read file: File does not exist: sub").
Proof.
  apply (read_file_outcomes "/srv/data" "sub" "/srv/data/sub" Example.env []);
    reflexivity.
Defined.

Lemma read_file_failure_is_wrapped_witness :
  exists inner,
    fst (read_file_try "/srv/data" "../../etc/passwd" Example.env
           [(DEBUG, "Attempting to read file at path: ../../etc/passwd")])
      = Raise inner /\
    ValueError "Failed to read file: Access denied: Path must be within /srv/data"
      = ValueError ("Failed to read file: " ++ str inner).
Proof.
  destruct (read_file_failure_is_wrapped "/srv/data" "../../etc/passwd"
              (ValueError "Failed to read file: Access denied: Path must be within /srv/data")
              Example.env [] eq_refl) as (inner & H1 & H2 & _).
  exists inner. split; assumption.
Defined.

(** ** Listing a directory *)

Section ListDirectory.
Import PyStr.
Context {regex timestamp : Type}.
Implicit Types (env : Env regex timestamp) (l : log).

(** One turn of the loop. *)
Lemma list_directory_item_run (s : string) (ih : bool) (item : string)
    (items : list item_info) env l :
  list_directory_item s ih item items env l =
  if listed ih item then
    if os_path_isdir env (PosixPath.join s item)
    then (Return (items ++ [mk_item_info item "directory" (startswith item ".") None])%list, l)
    else match os_path_getsize env (PosixPath.join s item) with
         | Return z =>
             (Return (items ++ [mk_item_info item "file" (startswith item ".") (Some z)])%list, l)
         | Raise e => (Raise e, l)
         end
  else (Return items, l).
Proof.
  unfold list_directory_item, listed. run.
  destruct ih, (startswith item "."); cbn [negb andb orb]; try reflexivity;
    destruct (os_path_isdir env _); cbn [negb]; try reflexivity;
    destruct (os_path_getsize env _); reflexivity.
Qed.

(** The loop appends, in order, one entry per child that is not skipped,
    named after the child and flagged hidden by its leading dot. *)
Lemma list_directory_loop (s : string) (ih : bool) (children : list string) :
  forall acc env l items l',
    for_each children (list_directory_item s ih) acc env l = (Return items, l') ->
    exists new,
      items = (acc ++ new)%list /\
      map item_name new = filter (listed ih) children /\
      Forall (fun it => item_is_hidden it = startswith (item_name it) ".") new.
Proof.
  induction children as [|c children IH]; intros acc env l items l' H.
  - cbn in H. injection H as <- <-. exists []. now rewrite app_nil_r.
  - cbn [for_each] in H. unfold bind in H.
    rewrite list_directory_item_run in H. cbn [filter].
    destruct (listed ih c).
    + destruct (os_path_isdir env _).
      * apply IH in H as (new & -> & Hn & Hh).
        eexists (_ :: new). rewrite <- app_assoc. split; [reflexivity|].
        split; [cbn; now f_equal | constructor; [reflexivity | assumption]].
      * destruct (os_path_getsize env _) as [z|e]; [|discriminate].
        apply IH in H as (new & -> & Hn & Hh).
        eexists (_ :: new). rewrite <- app_assoc. split; [reflexivity|].
        split; [cbn; now f_equal | constructor; [reflexivity | assumption]].
    + now apply IH in H.
Qed.

(** The loop runs to its end when the size of every listed child that is
    not a directory can be read. *)
Lemma list_directory_loop_total (s : string) (ih : bool) (children : list string) env :
  (forall c, In c children -> listed ih c = true ->
             os_path_isdir env (PosixPath.join s c) = false ->
             exists z, os_path_getsize env (PosixPath.join s c) = Return z) ->
  forall acc l, exists items,
    for_each children (list_directory_item s ih) acc env l = (Return items, l).
Proof.
  induction children as [|c children IH]; intros Hsz acc l.
  - now exists acc.
  - cbn [for_each]. unfold bind. rewrite list_directory_item_run.
    assert (Hrest : forall c', In c' children -> listed ih c' = true ->
              os_path_isdir env (PosixPath.join s c') = false ->
              exists z, os_path_getsize env (PosixPath.join s c') = Return z)
      by (intros; apply Hsz; [now right | assumption | assumption]).
    destruct (listed ih c) eqn:Hl; [|now apply IH].
    destruct (os_path_isdir env _) eqn:Hd; [now apply IH|].
    destruct (Hsz c (or_introl eq_refl) Hl Hd) as [z ->]. now apply IH.
Qed.

(** What the [try] block does once the path is accepted and names a
    directory that can be listed. *)
Lemma list_directory_try_loop (B path s : string) (ih : bool)
    (children : list string) env l :
  fst (secure_path B path env l) = Return s ->
  os_path_isdir env s = true -> os_listdir env s = Return children ->
  fst (list_directory_try B path ih env l)
  = fst (for_each children (list_directory_item s ih) [] env l).
Proof.
  intros Hs Hd Hl. unfold list_directory_try. run.
  rewrite (secure_path_Return _ _ _ _ _ Hs). rewrite Hd, Hl. cbn [negb].
  destruct (for_each children _ [] env l) as [[items|e] l']; reflexivity.
Qed.

(** A listing that returns went through every stage of the block. *)
Lemma list_directory_Return (B path : string) (ih : bool) env l
    (items : list item_info) :
  fst (list_directory B path ih env l) = Return items ->
  exists s children l0,
    fst (secure_path B path env l) = Return s /\
    os_path_isdir env s = true /\
    os_listdir env s = Return children /\
    fst (for_each children (list_directory_item s ih) [] env l0) = Return items.
Proof.
  unfold list_directory, list_directory_try. run.
  rewrite !secure_path_run.
  destruct (startswith _ B); cbn [fst]; [|discriminate].
  destruct (os_path_isdir env _) eqn:Hd; cbn [negb]; [|discriminate].
  destruct (os_listdir env _) as [children|e] eqn:Hl; [|discriminate].
  destruct (for_each children _ [] env _) as [[its|e] l'] eqn:Hloop;
    [|discriminate].
  cbn [fst]. intros [= <-].
  eexists _, children, _. rewrite Hloop. repeat split; assumption || reflexivity.
Qed.

Lemma list_directory_result (B path : string) (ih : bool) env l :
  fst (list_directory B path ih env l) =
  match fst (list_directory_try B path ih env
               (List.app l [(DEBUG, "Attempting to list directory at path: " ++ path)])) with
  | Return items => Return items
  | Raise e => Raise (ValueError ("Failed to list directory: " ++ str e))
  end.
Proof.
  unfold list_directory. run.
  destruct (list_directory_try B path ih env _) as [[c|e] l']; reflexivity.
Qed.

(** C7: a listing with [include_hidden = false] never returns an entry
    whose name starts with a dot; a listing with [include_hidden = true]
    that returns has exactly one entry per child of the directory, in
    [os.listdir] order; and the latter does return whenever the path is an
    accepted, listable directory and the size of each child that is not a
    directory can be read. *)
Theorem list_directory_hidden (B path : string) env l :
  (forall items, fst (list_directory B path false env l) = Return items ->
     Forall (fun it => startswith (item_name it) "." = false /\
                       item_is_hidden it = false) items) /\
  (forall items, fst (list_directory B path true env l) = Return items ->
     exists s, fst (secure_path B path env l) = Return s /\
               os_listdir env s = Return (map item_name items)) /\
  (forall s children,
     fst (secure_path B path env l) = Return s ->
     os_path_isdir env s = true ->
     os_listdir env s = Return children ->
     (forall c, In c children -> os_path_isdir env (PosixPath.join s c) = false ->
                exists z, os_path_getsize env (PosixPath.join s c) = Return z) ->
     exists items, fst (list_directory B path true env l) = Return items /\
                   map item_name items = children).
Proof.
  split; [|split].
  - intros items H.
    apply list_directory_Return in H as (s & children & l0 & _ & _ & _ & H).
    destruct (for_each children _ [] env l0) as [r l'] eqn:E. cbn in H. subst r.
    apply list_directory_loop in E as (new & -> & Hn & Hh). cbn [app].
    assert (Hk : Forall (fun n => listed false n = true) (map item_name new))
      by (rewrite Hn; apply Forall_forall; intros n Hin;
          now apply filter_In in Hin).
    rewrite Forall_map in Hk. rewrite Forall_forall in *.
    intros it Hin. specialize (Hk it Hin). specialize (Hh it Hin).
    unfold listed in Hk. cbn in Hk. apply negb_true_iff in Hk.
    split; congruence.
  - intros items H.
    apply list_directory_Return in H as (s & children & l0 & Hs & _ & Hl & H).
    destruct (for_each children _ [] env l0) as [r l'] eqn:E. cbn in H. subst r.
    apply list_directory_loop in E as (new & -> & Hn & _). cbn [app].
    exists s. split; [assumption|]. rewrite Hl, Hn. f_equal.
    clear. induction children; cbn; congruence.
  - intros s children Hs Hd Hl Hsz.
    destruct (list_directory_loop_total s true children env
                (fun c Hin _ Hdir => Hsz c Hin Hdir) []
                (List.app l [(DEBUG, "Attempting to list directory at path: " ++ path)]))
      as [items Hloop].
    exists items. split.
    + rewrite list_directory_result.
      rewrite (list_directory_try_loop B path s true children); try assumption.
      * now rewrite Hloop.
      * now rewrite (secure_path_Return _ _ _ _ _ Hs).
    + apply list_directory_loop in Hloop as (new & -> & Hn & _). cbn [app].
      rewrite Hn. clear. induction children; cbn; congruence.
Qed.

End ListDirectory.

Lemma list_directory_hidden_witness :
  exists items,
    fst (list_directory "/srv/data" "." true Example.env []) = Return items /\
    map item_name items = ["a.txt"; ".hidden"; "sub"].
Proof.
  apply (list_directory_hidden "/srv/data" "." Example.env [])
    with (s := "/srv/data"); try reflexivity.
  intros c [<- | [<- | [<- | []]]]; intros H; try discriminate H;
    eexists; reflexivity.
Defined.

(** ** Searching files *)

Section SearchFiles.
Import PyStr.
Context {regex timestamp : Type}.
Implicit Types (env : Env regex timestamp) (l : log).

(** *** The scan of one file's lines *)

Lemma scan_fold env (rx : regex) (ils : list (Z * string)) :
  forall acc,
    fold_left
      (fun matches (il : Z * string) =>
         let (i, line) := il in
         if re_search env rx line
         then (matches ++ [mk_match_info (i + 1) (strip env line)])%list
         else matches)
      ils acc
    = (acc ++ map (to_match env)
                (filter (fun il => re_search env rx (snd il)) ils))%list.
Proof.
  induction ils as [|[i line] ils IH]; intros acc; cbn [fold_left filter map snd].
  - now rewrite app_nil_r.
  - rewrite IH. destruct (re_search env rx line); [|reflexivity].
    cbn [map]. now rewrite <- app_assoc.
Qed.

Lemma scan_lines_found env (rx : regex) (text : string) :
  scan_lines env rx text
  = map (to_match env) (found_from env rx 0 (splitlines env text)).
Proof. unfold scan_lines. now rewrite scan_fold. Qed.

Lemma enumerate_from_In {A : Type} (x : A) (j : Z) (xs : list A) :
  forall i, In (j, x) (enumerate_from i xs) ->
            (i <= j)%Z /\ nth_error xs (Z.to_nat (j - i)) = Some x.
Proof.
  induction xs as [|y xs IH]; intros i H; [contradiction|].
  destruct H as [H | H].
  - injection H as <- <-. split; [lia|]. now rewrite Z.sub_diag.
  - apply IH in H as [Hle Hn]. split; [lia|].
    replace (Z.to_nat (j - i)) with (S (Z.to_nat (j - (i + 1)))) by lia.
    exact Hn.
Qed.

(** Every match reported for a text is a line of the text that the regex
    finds, numbered by its position counted from one and stripped. *)
Lemma scan_lines_sound env (rx : regex) (text : string) (m : match_info) :
  In m (scan_lines env rx text) ->
  (1 <= line_number m)%Z /\
  exists line,
    nth_error (splitlines env text) (Z.to_nat (line_number m - 1)) = Some line /\
    re_search env rx line = true /\
    content m = strip env line.
Proof.
  rewrite scan_lines_found. intros H.
  apply in_map_iff in H as ([j line] & <- & H).
  apply filter_In in H as [Hin Hre].
  apply enumerate_from_In in Hin as [Hle Hn]. cbn [to_match line_number content fst snd].
  split; [lia|]. exists line.
  replace (j + 1 - 1)%Z with (j - 0)%Z by lia. auto.
Qed.

(** Every line that the regex finds is reported. *)
Lemma scan_lines_complete env (rx : regex) (text line : string) :
  In line (splitlines env text) -> re_search env rx line = true ->
  scan_lines env rx text <> [].
Proof.
  rewrite scan_lines_found. unfold found_from. intros Hin Hre.
  assert (H : forall i, exists j, In (j, line) (enumerate_from i (splitlines env text))).
  { revert Hin. generalize (splitlines env text) as xs.
    induction xs as [|x xs IH]; intros Hin i; [contradiction|].
    destruct Hin as [-> | Hin].
    - exists i. now left.
    - destruct (IH Hin (i + 1)%Z) as [j Hj]. exists j. now right. }
  destruct (H 0%Z) as [j Hj].
  assert (Hf : In (j, line)
                 (filter (fun il => re_search env rx (snd il))
                    (enumerate_from 0 (splitlines env text))))
    by (apply filter_In; auto).
  destruct (filter _ _); [contradiction | discriminate].
Qed.

(** *** One file of the loop *)

Lemma search_files_file_result (B : string) (cr : option string) (f : string)
    (acc : list search_result) env l :
  fst (search_files_file B cr f acc env l) =
  match contribution B cr env f with
  | Raise e => Raise e
  | Return None => Return acc
  | Return (Some r) => Return (acc ++ [r])%list
  end.
Proof.
  unfold search_files_file, contribution. run.
  destruct (os_path_isfile env f); [|reflexivity].
  destruct (PosixPath.relpath _ f B) as [rel|e]; [|reflexivity].
  destruct (os_path_getsize env f) as [sz|e]; [|reflexivity].
  destruct (truthy cr) as [pat|]; [|reflexivity].
  destruct (open_read env f) as [text|e]; [|reflexivity].
  destruct (re_compile env pat) as [rx|e]; [|reflexivity].
  destruct (scan_lines env rx text); reflexivity.
Qed.

(** The loop appends, in glob order, the contribution of each path, and it
    returns only if no contribution raises. *)
Lemma search_files_loop (B : string) (cr : option string) (files : list string) :
  forall acc env l rs,
    fst (for_each files (search_files_file B cr) acc env l) = Return rs ->
    exists new,
      rs = (acc ++ new)%list /\
      Forall2 (fun f r => contribution B cr env f = Return (Some r))
        (filter (contributes B cr env) files) new /\
      Forall (fun f => exists o, contribution B cr env f = Return o) files.
Proof.
  induction files as [|f files IH]; intros acc env l rs H.
  - cbn in H. injection H as <-. exists []. rewrite app_nil_r.
    repeat split; constructor.
  - cbn [for_each] in H. unfold bind in H.
    pose proof (search_files_file_result B cr f acc env l) as Hf.
    destruct (search_files_file B cr f acc env l) as [[acc'|e] l1]; cbn [fst] in Hf.
    + cbn [filter]. unfold contributes at 1.
      destruct (contribution B cr env f) as [[r|]|e] eqn:E;
        try discriminate; injection Hf as ->.
      * apply IH in H as (new & -> & HF & Hok). exists (r :: new).
        rewrite <- app_assoc. split; [reflexivity|].
        split; constructor; eauto.
      * apply IH in H as (new & -> & HF & Hok). exists new.
        repeat split; try assumption. constructor; eauto.
    + discriminate.
Qed.


(** *** The whole call *)




(** A search that returns went through every stage of the block. *)
Lemma search_files_Return (B pattern sp : string) (rec : bool)
    (cr : option string) env l (rs : list search_result) :
  fst (search_files B pattern sp rec cr env l) = Return rs ->
  exists s l0,
    fst (secure_path B sp env l) = Return s /\
    os_path_isdir env s = true /\
    fst (for_each (glob_glob env (search_pattern s pattern rec) rec)
           (search_files_file B cr) [] env l0) = Return rs.
Proof.
  unfold search_files, search_files_try. run.
  rewrite !secure_path_run.
  destruct (startswith _ B); cbn [fst]; [|discriminate].
  destruct (os_path_isdir env _) eqn:Hd; cbn [negb]; [|discriminate].
  destruct (for_each _ _ [] env _) as [[its|e] l'] eqn:Hloop; [|discriminate].
  cbn [fst]. intros [= <-].
  eexists _, _. rewrite Hloop. repeat split; assumption || reflexivity.
Qed.

Lemma Forall2_right_In {A C : Type} (R : A -> C -> Prop) (xs : list A) (ys : list C) :
  Forall2 R xs ys -> Forall (fun y => exists x, In x xs /\ R x y) ys.
Proof.
  induction 1 as [|x y xs ys HR _ IH]; constructor.
  - exists x. split; [now left | assumption].
  - revert IH. apply Forall_impl. intros y' (x' & Hin & HR').
    exists x'. split; [now right | assumption].
Qed.

(** *** What a contribution is made of *)




Lemma contribution_regex (B f : string) (cr : option string)
    (r : search_result) (ms : list match_info) env :
  contribution B cr env f = Return (Some r) ->
  result_matches r = Some ms ->
  os_path_isfile env f = true /\
  PosixPath.relpath (os_getcwd env) f B = Return (result_path r) /\
  os_path_getsize env f = Return (result_size r) /\
  exists pat text rx,
    cr = Some pat /\ pat <> "" /\
    open_read env f = Return text /\ re_compile env pat = Return rx /\
    ms = scan_lines env rx text /\ ms <> [].
Proof.
  unfold contribution.
  destruct (os_path_isfile env f); [|discriminate].
  destruct (PosixPath.relpath _ f B) as [rel|e]; [|discriminate].
  destruct (os_path_getsize env f) as [sz|e]; [|discriminate].
  destruct cr as [pat|]; cbn [truthy].
  - destruct (pat =? "") eqn:Epat.
    + intros [= <-]. discriminate.
    + destruct (open_read env f) as [text|e]; [|discriminate].
      destruct (re_compile env pat) as [rx|e] eqn:Erx; [|discriminate].
      destruct (scan_lines env rx text) as [|m ms'] eqn:Es; [discriminate|].
      intros [= <-]. cbn. intros [= <-].
      repeat split; try reflexivity.
      exists pat, text, rx. rewrite Es. apply String.eqb_neq in Epat.
      repeat split; auto. discriminate.
  - intros [= <-]. discriminate.
Qed.

(** Which paths contribute, when no contribution raises. *)
Lemma contributes_plain (B f : string) (o : option search_result) env :
  contribution B None env f = Return o ->
  contributes B None env f = os_path_isfile env f.
Proof.
  unfold contributes, contribution. cbn [truthy].
  destruct (os_path_isfile env f); [|now intros [= <-]].
  destruct (PosixPath.relpath _ f B) as [rel|e]; [|discriminate].
  destruct (os_path_getsize env f) as [sz|e]; [|discriminate].
  now intros [= <-].
Qed.




(** C8: in every entry that a search returns with matches, the matches
    are those of one globbed regular file, read as text and scanned with
    the compiled content regex; each match has a line number of at least
    one, the line at that position, counted from one, of the text split
    into lines is found by the regex, and the content of the match is that
    line stripped. *)
Theorem search_files_line_numbers (B pattern sp : string) (rec : bool)
    (cr : option string) env l (rs : list search_result) :
  fst (search_files B pattern sp rec cr env l) = Return rs ->
  Forall (fun r => forall ms,
    result_matches r = Some ms ->
    exists s f pat text rx,
      fst (secure_path B sp env l) = Return s /\
      In f (glob_glob env (search_pattern s pattern rec) rec) /\
      PosixPath.relpath (os_getcwd env) f B = Return (result_path r) /\
      cr = Some pat /\
      open_read env f = Return text /\ re_compile env pat = Return rx /\
      Forall (fun m =>
        (1 <= line_number m)%Z /\
        exists line,
          nth_error (splitlines env text) (Z.to_nat (line_number m - 1)) = Some line /\
          re_search env rx line = true /\
          content m = strip env line) ms) rs.
Proof.
  intros H. apply search_files_Return in H as (s & l0 & Hs & _ & Hloop).
  apply search_files_loop in Hloop as (new & -> & HF & _). cbn [app].
  apply Forall2_right_In in HF. revert HF. apply Forall_impl.
  intros r (f & Hin & Hc) ms Hms. apply filter_In in Hin as [Hin _].
  destruct (contribution_regex B f cr r ms env Hc Hms)
    as (_ & Hrel & _ & pat & text & rx & -> & _ & Ho & Hrx & -> & _).
  exists s, f, pat, text, rx. repeat split; auto.
  apply Forall_forall. intros m Hm. now apply scan_lines_sound.
Qed.

End SearchFiles.


Lemma search_files_line_numbers_witness :
  Forall (fun r => forall ms,
    result_matches r = Some ms ->
    exists s f pat text rx,
      fst (secure_path "/srv/data" "." Example.env []) = Return s /\
      In f (glob_glob Example.env (search_pattern s "*.txt" true) true) /\
      PosixPath.relpath (os_getcwd Example.env) f "/srv/data" = Return (result_path r) /\
      Some "needle" = Some pat /\
      open_read Example.env f = Return text /\
      re_compile Example.env pat = Return rx /\
      Forall (fun m =>
        (1 <= line_number m)%Z /\
        exists line,
          nth_error (splitlines Example.env text) (Z.to_nat (line_number m - 1))
            = Some line /\
          re_search Example.env rx line = true /\
          content m = strip Example.env line) ms)
    [mk_search_result "a.txt" 24 (Some [mk_match_info 2 "needle here"])].
Proof.
  apply (search_files_line_numbers "/srv/data" "*.txt" "." true (Some "needle")
           Example.env []).
  reflexivity.
Defined.


(** C3 (the code departs from the claim): the directory [/srv/data] exists
    and the content regex ["("] does not compile, yet the search returns
    normally, with an empty result; the failed compilation is logged as a
    warning once per globbed regular file, after the file has been read. *)
Theorem search_files_invalid_regex_returns :
  os_path_isdir Example.env "/srv/data" = true /\
  re_compile Example.env "("
    = Raise (re_error "missing ), unterminated subpattern at position 0") /\
  search_files "/srv/data" "*.txt" "." true (Some "(") Example.env []
  = (Return [],
     [(DEBUG, "Searching for files matching pattern: *.txt in .");
      (WARNING, "Could not search content in /srv/data/a.txt: missing ), unterminated subpattern at position 0");
      (WARNING, "Could not search content in /srv/data/sub/b.txt: missing ), unterminated subpattern at position 0");
      (WARNING, "Could not search content in /srv/data/sub/empty.txt: missing ), unterminated subpattern at position 0");
      (DEBUG, "Found 0 matching files")]).
Proof. repeat split. Qed.

(** ** The ring of recent changes *)

Section ChangeRing.
Context {regex timestamp : Type}.
Implicit Types (env : Env regex timestamp) (fc cs : list (change timestamp)).

Lemma lastn_length {A : Type} (n : nat) (xs : list A) :
  List.length (lastn n xs) <= n.
Proof. unfold lastn. rewrite length_skipn. lia. Qed.

Lemma lastn_short {A : Type} (n : nat) (xs : list A) :
  List.length xs <= n -> lastn n xs = xs.
Proof.
  intros H. unfold lastn. now replace (List.length xs - n) with 0 by lia.
Qed.

Lemma lastn_app_lastn {A : Type} (n : nat) (xs ys : list A) :
  lastn n (lastn n xs ++ ys) = lastn n (xs ++ ys).
Proof.
  unfold lastn.
  assert (E : (skipn (List.length xs - n) xs ++ ys
               = skipn (List.length xs - n) (xs ++ ys))%list).
  { rewrite skipn_app.
    now replace (List.length xs - n - List.length xs) with 0 by lia. }
  rewrite E, skipn_skipn, length_skipn, !length_app. f_equal. lia.
Qed.

Lemma records_recorded (B : string) (evs : list (Env regex timestamp * fs_event)) :
  forall cs, records B evs = Some cs -> recorded B evs cs.
Proof.
  induction evs as [|[env ev] evs IH]; intros cs H; cbn in H.
  - injection H as <-. constructor.
  - destruct (is_directory ev) eqn:Hd; [discriminate|].
    destruct (make_change B env ev) as [c|e] eqn:Hc; [|discriminate].
    destruct (records B evs) as [cs'|]; [|discriminate].
    injection H as <-. constructor; [now split | now apply IH].
Qed.

(** The handler never lets the ring grow beyond 100 records. *)
Lemma on_any_event_length (B : string) env (ev : fs_event) fc :
  List.length fc <= 100 ->
  List.length (snd (on_any_event B env ev fc)) <= 100.
Proof.
  intros H. unfold on_any_event.
  destruct (is_directory ev); [exact H|].
  destruct (make_change B env ev) as [c|e]; [|exact H].
  destruct (100 <? _)%nat eqn:E; cbn [snd].
  - destruct fc as [|x fc]; cbn in *; [lia|]. rewrite length_app. cbn. lia.
  - now apply Nat.ltb_ge in E.
Qed.

Lemma deliver_length (B : string) (evs : list (Env regex timestamp * fs_event)) :
  forall fc, List.length fc <= 100 -> List.length (deliver B fc evs) <= 100.
Proof.
  induction evs as [|[env ev] evs IH]; intros fc H; [exact H|].
  cbn [deliver fold_left]. apply IH. now apply on_any_event_length.
Qed.

(** A recorded event appends its record and keeps the 100 newest. *)
Lemma on_any_event_recorded (B : string) env (ev : fs_event) fc
    (c : change timestamp) :
  is_directory ev = false -> make_change B env ev = Return c ->
  List.length fc <= 100 ->
  on_any_event B env ev fc = (Return tt, lastn 100 (fc ++ [c])).
Proof.
  intros Hd Hc Hlen. unfold on_any_event. rewrite Hd, Hc.
  destruct (100 <? _)%nat eqn:E.
  - apply Nat.ltb_lt in E. rewrite length_app in E. cbn in E.
    unfold lastn. rewrite length_app. cbn [List.length].
    now replace (List.length fc + 1 - 100) with 1 by lia.
  - apply Nat.ltb_ge in E. now rewrite lastn_short.
Qed.

Lemma deliver_recorded (B : string) (evs : list (Env regex timestamp * fs_event)) cs :
  recorded B evs cs ->
  forall fc, List.length fc <= 100 -> deliver B fc evs = lastn 100 (fc ++ cs).
Proof.
  induction 1 as [|[env ev] c evs cs [Hd Hc] _ IH]; intros fc Hlen.
  - cbn. rewrite app_nil_r. now rewrite lastn_short.
  - cbn [deliver fold_left fst snd] in *.
    rewrite (on_any_event_recorded B env ev fc c Hd Hc Hlen). cbn [snd].
    fold (deliver B (lastn 100 (fc ++ [c])) evs).
    rewrite IH by apply lastn_length.
    rewrite lastn_app_lastn, <- app_assoc. reflexivity.
Qed.

(** C5: starting from the empty ring, the ring holds at most 100 records
    after each event of any sequence; when every event is a recorded file
    event the ring is the 100 most recent records in order of arrival; so
    after 101 such events it is the records of the 2nd to the 101st event:
    it has 100 records, the newest is the record of the 101st event, and the
    record of the first event is in it only if a later event produced an
    equal record. *)
Theorem change_ring_fifo (B : string) (evs : list (Env regex timestamp * fs_event)) :
  (forall n, List.length (deliver B [] (firstn n evs)) <= 100) /\
  (forall cs, recorded B evs cs -> deliver B [] evs = lastn 100 cs) /\
  (forall cs c1 c101,
     recorded B evs cs -> List.length evs = 101 ->
     nth_error cs 0 = Some c1 -> nth_error cs 100 = Some c101 ->
     deliver B [] evs = tl cs /\
     List.length (deliver B [] evs) = 100 /\
     nth_error (deliver B [] evs) 99 = Some c101 /\
     (~ In c1 (tl cs) -> ~ In c1 (deliver B [] evs))).
Proof.
  split; [|split].
  - intros n. apply deliver_length. cbn. lia.
  - intros cs H. rewrite (deliver_recorded B evs cs H []); [reflexivity | cbn; lia].
  - intros cs c1 c101 H Hlen H1 H101.
    assert (Hcs : List.length cs = 101)
      by (rewrite <- Hlen; symmetry; apply (Forall2_length H)).
    assert (E : deliver B [] evs = tl cs).
    { rewrite (deliver_recorded B evs cs H []) by (cbn; lia).
      cbn [app]. unfold lastn. rewrite Hcs.
      destruct cs; [discriminate | reflexivity]. }
    rewrite E. destruct cs as [|c cs]; [discriminate|]. cbn [tl] in *.
    repeat split; auto; cbn in Hcs; lia.
Qed.

End ChangeRing.

Lemma change_ring_fifo_witness :
  let cs := map (fun i => mk_change ("f" ++ PyStr.of_Z (Z.of_nat i)) "modified" None)
                (seq 1 101) in
  deliver "/srv/data" [] hundred_and_one = tl cs /\
  List.length (deliver "/srv/data" [] hundred_and_one) = 100 /\
  nth_error (deliver "/srv/data" [] hundred_and_one) 99
    = Some (mk_change "f101" "modified" None) /\
  (~ In (mk_change "f1" "modified" None) (tl cs) ->
   ~ In (mk_change "f1" "modified" None) (deliver "/srv/data" [] hundred_and_one)).
Proof.
  intros cs.
  refine (proj2 (proj2 (change_ring_fifo "/srv/data" hundred_and_one)) cs
            (mk_change "f1" "modified" None) (mk_change "f101" "modified" None)
            _ _ _ _).
  - apply records_recorded. vm_compute. reflexivity.
  - vm_compute. reflexivity.
  - vm_compute. reflexivity.
  - vm_compute. reflexivity.
Defined.

(** ** More on normalization and the path check *)

Section NormalForm.
Import PyStr PosixPath Containment.

Lemma last_In {A : Type} (d : A) (xs : list A) : xs <> [] -> In (last xs d) xs.
Proof.
  induction xs as [|x xs IH]; [congruence|]. intros _.
  destruct xs as [|y xs]; [now left|].
  right. apply IH. discriminate.
Qed.

Lemma normpath_step_clean (k : nat) (acc : list string) (w : string) :
  k <> 0 -> contains sepc w = false -> Forall clean acc ->
  Forall clean (normpath_step k acc w).
Proof.
  intros Hk Hw Hacc. unfold normpath_step.
  destruct (w =? "") eqn:E0; cbn [orb]; [assumption|].
  destruct (w =? ".") eqn:E1; cbn [orb]; [assumption|].
  apply String.eqb_neq in E0, E1.
  destruct (negb (w =? "..") || (k =? 0)%nat && is_nil acc
            || negb (is_nil acc) && (last acc "" =? "..")) eqn:C.
  - apply Forall_app. split; [assumption|]. constructor; [|constructor].
    repeat split; try assumption.
    intros ->. cbn [String.eqb Ascii.eqb Bool.eqb negb orb] in C.
    apply Nat.eqb_neq in Hk. rewrite Hk in C. cbn [andb orb] in C.
    apply andb_true_iff in C as [Hne Hlast].
    apply String.eqb_eq in Hlast.
    assert (Hin : In (last acc "") acc)
      by (apply last_In; destruct acc; [discriminate Hne | discriminate]).
    rewrite Forall_forall in Hacc. apply Hacc in Hin as (_ & _ & Hdd).
    now apply Hdd.
  - destruct (negb (is_nil acc)); [now apply Forall_removelast | assumption].
Qed.

Lemma normpath_loop_clean (k : nat) (comps acc : list string) :
  k <> 0 -> Forall (fun w => contains sepc w = false) comps -> Forall clean acc ->
  Forall clean (fold_left (normpath_step k) comps acc).
Proof.
  intros Hk Hc. revert acc.
  induction Hc as [|w comps Hw _ IH]; cbn [fold_left]; intros acc Hacc; [assumption|].
  apply IH. now apply normpath_step_clean.
Qed.

(** Clean names pass through the loop of [normpath] unchanged. *)
Lemma normpath_loop_keeps (k : nat) (nc : list string) :
  Forall clean nc ->
  forall acc, fold_left (normpath_step k) nc acc = (acc ++ nc)%list.
Proof.
  induction 1 as [|w nc ((Hne & _) & Hd & Hdd) _ IH]; intros acc; cbn [fold_left].
  - now rewrite app_nil_r.
  - unfold normpath_step at 2.
    apply String.eqb_neq in Hne, Hd, Hdd. rewrite Hne, Hd, Hdd. cbn [orb negb].
    rewrite IH, <- app_assoc. reflexivity.
Qed.

Lemma initial_slashes_shape (k : nat) (x : string) :
  k = 1 \/ k = 2 -> startswith x sep = false ->
  initial_slashes (repeat sep k ++ x) = k.
Proof.
  intros Hk Hx. unfold initial_slashes. unfold sep in *.
  destruct Hk as [-> | ->]; cbn [repeat String.append];
    rewrite !startswith_cons, ?Hx, ?startswith_nil; reflexivity.
Qed.

Lemma split_join (nc : list string) :
  Forall name_ok nc -> nc <> [] -> split sepc (PyStr.join sep nc) = nc.
Proof.
  unfold PyStr.join.
  induction 1 as [|w nc [_ Hw] Hnc IH]; intros Hne; [congruence|].
  destruct nc as [|w' nc].
  - cbn. now apply split_no_sep.
  - change (String.concat sep (w :: w' :: nc))
      with (w ++ String sepc (String.concat sep (w' :: nc))).
    rewrite (split_app_sep _ _ _ Hw). f_equal. apply IH. discriminate.
Qed.

Lemma clean_name_ok (nc : list string) : Forall clean nc -> Forall name_ok nc.
Proof. apply Forall_impl. now intros w [H _]. Qed.

(** The loop of [normpath] over the components of a normal form gives back
    its names. *)
Lemma normpath_loop_shape (k j : nat) (nc : list string) :
  Forall clean nc ->
  fold_left (normpath_step j) (split sepc (repeat sep k ++ PyStr.join sep nc)) []
  = nc.
Proof.
  intros Hnc. induction k as [|k IH].
  - cbn [repeat String.append]. destruct nc as [|w nc].
    + reflexivity.
    + rewrite split_join by (now apply clean_name_ok || discriminate).
      now rewrite normpath_loop_keeps.
  - cbn [repeat]. unfold sep at 1. cbn [String.append split].
    cbn [Ascii.eqb Bool.eqb fold_left]. exact IH.
Qed.

(** The normal form of an absolute path: one or two slashes, then clean
    names joined by single slashes. *)
Lemma normpath_abs_clean (p : string) :
  isabs p = true ->
  exists k nc, (k = 1 \/ k = 2) /\ Forall clean nc /\
               normpath p = repeat sep k ++ PyStr.join sep nc.
Proof.
  intros Habs. destruct p as [|a p]; [discriminate|].
  exists (initial_slashes (String a p)),
         (fold_left (normpath_step (initial_slashes (String a p)))
                    (split sepc (String a p)) []).
  assert (Hk : initial_slashes (String a p) = 1 \/ initial_slashes (String a p) = 2).
  { unfold initial_slashes. unfold isabs in Habs. rewrite Habs.
    destruct (_ && _); auto. }
  split; [exact Hk|]. split.
  - apply normpath_loop_clean; [lia | apply split_components | constructor].
  - unfold normpath. cbn [String.eqb].
    destruct Hk as [-> | ->]; reflexivity.
Qed.

Lemma normpath_shape_fixed (k : nat) (nc : list string) :
  k = 1 \/ k = 2 -> Forall clean nc ->
  normpath (repeat sep k ++ PyStr.join sep nc) = repeat sep k ++ PyStr.join sep nc.
Proof.
  intros Hk Hnc. unfold normpath.
  rewrite initial_slashes_shape
    by (assumption || now apply join_not_abs, clean_name_ok).
  rewrite normpath_loop_shape by assumption.
  destruct Hk as [-> | ->]; reflexivity.
Qed.

Lemma shape_isabs (k : nat) (x : string) :
  k = 1 \/ k = 2 -> isabs (repeat sep k ++ x) = true.
Proof.
  intros Hk. unfold isabs, sep.
  destruct Hk as [-> | ->]; cbn [repeat String.append];
    now rewrite startswith_cons, startswith_nil.
Qed.

(** [normpath] is idempotent on absolute paths, and keeps them absolute. *)
Theorem normpath_idempotent_abs (p : string) :
  isabs p = true ->
  isabs (normpath p) = true /\ normpath (normpath p) = normpath p.
Proof.
  intros Habs. destruct (normpath_abs_clean p Habs) as (k & nc & Hk & Hnc & ->).
  split; [now apply shape_isabs | now apply normpath_shape_fixed].
Qed.

Lemma startswith_split (s a : string) :
  startswith s a = true -> exists t, s = a ++ t.
Proof.
  revert s. induction a as [|c a IH]; intros s H.
  - now exists s.
  - destruct s as [|d s]; [discriminate|].
    rewrite startswith_cons in H. apply andb_true_iff in H as [Hc Hs].
    apply Ascii.eqb_eq in Hc. subst d. destruct (IH s Hs) as [t ->]. now exists t.
Qed.

Lemma split_not_nil (c : ascii) (s : string) : split c s <> [].
Proof.
  destruct s as [|a s]; cbn; [discriminate|].
  destruct (Ascii.eqb a c); [discriminate|]. destruct (split c s); discriminate.
Qed.

(** Splitting distributes over a separator. *)
Lemma split_app_sep_all (c : ascii) (a t : string) :
  split c (a ++ String c t) = (split c a ++ split c t)%list.
Proof.
  induction a as [|x a IH]; cbn [String.append split].
  - now rewrite Ascii.eqb_refl.
  - rewrite IH. destruct (Ascii.eqb x c); [reflexivity|].
    pose proof (split_not_nil c a) as Hne.
    destruct (split c a); [congruence | reflexivity].
Qed.

Lemma is_prefix_refl_app (l r : list string) : is_prefix l (l ++ r) = true.
Proof.
  induction l as [|x l IH]; [reflexivity|]. cbn. now rewrite String.eqb_refl.
Qed.

Lemma startswith_app_l (x y : string) (c : ascii) :
  x <> "" -> startswith (x ++ y) (String c "") = startswith x (String c "").
Proof.
  destruct x as [|a x]; [congruence|]. intros _. cbn [String.append].
  now rewrite !startswith_cons, !startswith_nil.
Qed.

Lemma join_nonempty (nc : list string) :
  Forall name_ok nc -> nc <> [] -> PyStr.join sep nc <> "".
Proof.
  unfold PyStr.join. intros H Hne. destruct H as [|w nc [Hw _] _]; [congruence|].
  destruct w as [|a w]; [congruence|]. destruct nc; discriminate.
Qed.

(** Whatever starts with a non-root normal form followed by a separator is
    within it by components. *)
Lemma boundary_within (k : nat) (nb : list string) (s : string) :
  k = 1 \/ k = 2 -> Forall name_ok nb -> nb <> [] ->
  startswith s ((repeat sep k ++ PyStr.join sep nb) ++ sep) = true ->
  within (repeat sep k ++ PyStr.join sep nb) s = true.
Proof.
  intros Hk Hnb Hne Hs. apply startswith_split in Hs as [t ->].
  unfold within. apply andb_true_iff. split.
  - apply String.eqb_eq. rewrite root_shape by assumption. unfold root.
    rewrite !app_assoc_str. rewrite initial_slashes_shape; [reflexivity | assumption |].
    unfold sep. rewrite startswith_app_l by now apply join_nonempty.
    now apply join_not_abs.
  - unfold names. rewrite (app_assoc_str _ sep t).
    change (sep ++ t) with (String sepc t).
    rewrite split_app_sep_all, filter_app.
    apply is_prefix_refl_app.
Qed.

(** For a normalized absolute base other than a root and a normalized
    absolute path, containment by components is the string-prefix test at a
    path boundary: the path is the base, or starts with the base followed by
    a separator. *)
Lemma within_iff_boundary (B p : string) :
  isabs B = true -> normpath B = B -> names B <> [] -> isabs p = true ->
  within B (normpath p) = true <->
  (normpath p = B \/ startswith (normpath p) (B ++ sep) = true).
Proof.
  intros HB HnB Hne Hp. split.
  - intros Hw.
    destruct (within_startswith B p HB HnB Hp Hw) as [_ Hsep].
    destruct (List.length (names B) <? List.length (names (normpath p)))%nat eqn:Hlen.
    + right. apply Hsep; [assumption|]. unfold strictly_under. now rewrite Hw, Hlen.
    + left. apply Nat.ltb_ge in Hlen.
      destruct (normalized_parts B HB) as [_ EB]. rewrite HnB in EB.
      destruct (normalized_parts p Hp) as [_ Ep].
      unfold within in Hw. apply andb_true_iff in Hw as [Hr Hpre].
      apply String.eqb_eq in Hr. apply is_prefix_app in Hpre as [rest Hrest].
      rewrite Hrest, length_app in Hlen.
      destruct rest; [|cbn in Hlen; lia]. rewrite app_nil_r in Hrest.
      rewrite Ep, EB, Hr, Hrest. reflexivity.
  - intros [-> | Hs].
    + unfold within. rewrite String.eqb_refl.
      rewrite <- (app_nil_r (names B)) at 2. apply is_prefix_refl_app.
    + destruct (normpath_abs B HB) as (k & nb & Hk & Hnb & EB). rewrite HnB in EB.
      assert (Hnb_ne : nb <> []).
      { intros ->. apply Hne. rewrite EB, names_shape. reflexivity. }
      rewrite EB in *. now apply boundary_within.
Qed.

(** For a normalized absolute base other than a root, the candidates whose
    normalized form is within the base by components are exactly those that
    [secure_path] accepts with a result that is the base itself or starts
    with the base followed by a separator. *)
Theorem secure_path_boundary_exact {regex timestamp : Type} (B P : string)
    (env : Env regex timestamp) (l : log) :
  isabs B = true -> normpath B = B -> names B <> [] ->
  within B (normpath (absolute B P)) = true <->
  exists s, fst (secure_path B P env l) = Return s /\
            (s = B \/ startswith s (B ++ sep) = true).
Proof.
  intros HB HnB Hne.
  pose proof (within_iff_boundary B (absolute B P) HB HnB Hne
                (absolute_isabs B P HB)) as Hiff.
  split.
  - intros Hw. exists (normpath (absolute B P)). split; [|now apply Hiff].
    destruct (within_startswith B (absolute B P) HB HnB
                (absolute_isabs B P HB) Hw) as [Hpre _].
    now rewrite secure_path_run, Hpre.
  - intros (s & Hs & Hb). apply Hiff.
    rewrite secure_path_run in Hs.
    destruct (startswith (normpath (absolute B P)) B); [|discriminate].
    cbn [fst] in Hs. injection Hs as <-. exact Hb.
Qed.

(** For an absolute base, every path that [secure_path] accepts is in normal
    form: it is absolute, none of its components is [.] or [..], none of its
    names is empty, and checking it again returns it unchanged. *)
Theorem secure_path_accepts_normal_form {regex timestamp : Type} (B P s : string)
    (env : Env regex timestamp) (l : log) :
  isabs B = true ->
  fst (secure_path B P env l) = Return s ->
  isabs s = true /\
  (forall w, In w (split sepc s) -> w <> "." /\ w <> "..") /\
  normpath s = s /\
  secure_path B s env l = (Return s, l).
Proof.
  intros HB Hs. pose proof (secure_path_startswith _ _ _ _ _ Hs) as Hpre.
  rewrite secure_path_run in Hs.
  destruct (startswith (normpath (absolute B P)) B); [|discriminate].
  cbn [fst] in Hs. injection Hs as <-.
  destruct (normpath_abs_clean _ (absolute_isabs B P HB)) as (k & nc & Hk & Hnc & E).
  rewrite E in *.
  assert (Habs : isabs (repeat sep k ++ PyStr.join sep nc) = true)
    by now apply shape_isabs.
  assert (Hfix : normpath (repeat sep k ++ PyStr.join sep nc)
                 = repeat sep k ++ PyStr.join sep nc)
    by now apply normpath_shape_fixed.
  repeat split; try assumption.
  - intros ->.
    assert (Hin : In "." (names (repeat sep k ++ PyStr.join sep nc)))
      by (apply filter_In; split; [assumption | reflexivity]).
    rewrite names_shape, names_join in Hin by now apply clean_name_ok.
    rewrite Forall_forall in Hnc. now destruct (Hnc _ Hin) as (_ & Hd & _).
  - intros ->.
    assert (Hin : In ".." (names (repeat sep k ++ PyStr.join sep nc)))
      by (apply filter_In; split; [assumption | reflexivity]).
    rewrite names_shape, names_join in Hin by now apply clean_name_ok.
    rewrite Forall_forall in Hnc. now destruct (Hnc _ Hin) as (_ & _ & Hdd).
  - rewrite secure_path_run. unfold absolute at 1 2. rewrite Habs. cbn [negb].
    rewrite Hfix, Hpre. reflexivity.
Qed.

End NormalForm.

Lemma normpath_idempotent_abs_witness :
  PosixPath.isabs (PosixPath.normpath "//srv/./data/../x//") = true /\
  PosixPath.normpath (PosixPath.normpath "//srv/./data/../x//")
  = PosixPath.normpath "//srv/./data/../x//".
Proof. apply (normpath_idempotent_abs "//srv/./data/../x//"). reflexivity. Defined.

Lemma secure_path_boundary_exact_witness :
  Containment.within "/srv/data"
    (PosixPath.normpath (absolute "/srv/data" "sub/../a.txt")) = true <->
  exists s, fst (secure_path "/srv/data" "sub/../a.txt" Example.env []) = Return s /\
            (s = "/srv/data" \/
             PyStr.startswith s ("/srv/data" ++ PosixPath.sep) = true).
Proof.
  apply (secure_path_boundary_exact "/srv/data" "sub/../a.txt" Example.env []);
    [reflexivity | reflexivity | discriminate].
Defined.

Lemma secure_path_accepts_normal_form_witness :
  PosixPath.isabs "/srv/data/a.txt" = true /\
  (forall w, In w (PyStr.split PosixPath.sepc "/srv/data/a.txt") -> w <> "." /\ w <> "..") /\
  PosixPath.normpath "/srv/data/a.txt" = "/srv/data/a.txt" /\
  secure_path "/srv/data" "/srv/data/a.txt" Example.env [] = (Return "/srv/data/a.txt", []).
Proof.
  apply (secure_path_accepts_normal_form "/srv/data" "./sub/..//a.txt"
           "/srv/data/a.txt" Example.env []); reflexivity.
Defined.

(** ** Going up from the base, and coming back from a relative path *)

Section Traversal.
Import PyStr PosixPath Containment.

Lemma length_append_str (a b : string) :
  String.length (a ++ b) = String.length a + String.length b.
Proof. induction a as [|c a IH]; cbn; [reflexivity | now rewrite IH]. Qed.

Lemma startswith_length (s a : string) :
  startswith s a = true -> String.length a <= String.length s.
Proof.
  intros H. apply startswith_split in H as [t ->]. rewrite length_append_str. lia.
Qed.

Lemma endswith_app (x y : string) (c : ascii) :
  y <> "" -> endswith (x ++ y) c = endswith y c.
Proof.
  intros Hy. induction x as [|a x IH]; [reflexivity|].
  cbn [String.append endswith]. rewrite IH.
  destruct (x ++ y) eqn:E; [|reflexivity].
  destruct x; [cbn in E; congruence | discriminate].
Qed.

Lemma endswith_no_sep (w : string) (c : ascii) :
  contains c w = false -> endswith w c = false.
Proof.
  induction w as [|a w IH]; [reflexivity|]. cbn [contains endswith].
  intros H. apply orb_false_iff in H as [Ha Hw].
  destruct w; [exact Ha | now apply IH].
Qed.

Lemma endswith_join (nc : list string) :
  Forall name_ok nc -> endswith (PyStr.join sep nc) sepc = false.
Proof.
  unfold PyStr.join. induction 1 as [|w nc [Hne Hw] Hnc IH]; [reflexivity|].
  destruct nc as [|w' nc].
  - cbn. now apply endswith_no_sep.
  - change (String.concat sep (w :: w' :: nc))
      with (w ++ (sep ++ String.concat sep (w' :: nc))).
    rewrite endswith_app by discriminate.
    rewrite endswith_app; [exact IH|].
    apply (join_nonempty (w' :: nc)); [assumption | discriminate].
Qed.

Lemma endswith_root (k : nat) : k = 1 \/ k = 2 -> endswith (repeat sep k) sepc = true.
Proof. intros [-> | ->]; reflexivity. Qed.

(** Over a normal form, the loop of [normpath] sees the joined names. *)
Lemma normpath_loop_names (j k : nat) (nc : list string) :
  Forall name_ok nc ->
  fold_left (normpath_step j) (split sepc (repeat sep k ++ PyStr.join sep nc)) []
  = fold_left (normpath_step j) nc [].
Proof.
  intros Hnc. induction k as [|k IH].
  - cbn [repeat String.append]. destruct nc as [|w nc]; [reflexivity|].
    now rewrite split_join by (assumption || discriminate).
  - cbn [repeat]. unfold sep at 1. cbn [String.append split].
    cbn [Ascii.eqb Bool.eqb fold_left]. exact IH.
Qed.

Lemma join_removelast_shorter (nb : list string) :
  Forall name_ok nb -> nb <> [] ->
  String.length (PyStr.join sep (removelast nb)) < String.length (PyStr.join sep nb).
Proof.
  unfold PyStr.join. induction 1 as [|w nb [Hne _] Hnb IH]; intros H; [congruence|].
  destruct nb as [|w' nb].
  - cbn. destruct w; [congruence | cbn; lia].
  - specialize (IH ltac:(discriminate)).
    change (removelast (w :: w' :: nb)) with (w :: removelast (w' :: nb)).
    change (String.concat sep (w :: w' :: nb))
      with (w ++ (sep ++ String.concat sep (w' :: nb))).
    destruct (removelast (w' :: nb)) as [|x xs] eqn:E.
    + cbn [String.concat]. rewrite !length_append_str. cbn. lia.
    + change (String.concat sep (w :: x :: xs))
        with (w ++ (sep ++ String.concat sep (x :: xs))).
      rewrite !length_append_str. lia.
Qed.

(** The normal form of the parent: [..] after a non-root normal form removes
    its last name. *)
Lemma normpath_parent (k : nat) (nb : list string) :
  k = 1 \/ k = 2 -> Forall clean nb -> nb <> [] ->
  normpath ((repeat sep k ++ PyStr.join sep nb) ++ sep ++ "..")
  = repeat sep k ++ PyStr.join sep (removelast nb).
Proof.
  intros Hk Hnb Hne.
  assert (Hok : Forall name_ok (nb ++ [".."])%list).
  { apply Forall_app. split; [now apply clean_name_ok|].
    constructor; [split; [discriminate | reflexivity] | constructor]. }
  assert (E : (repeat sep k ++ PyStr.join sep nb) ++ sep ++ ".."
              = repeat sep k ++ PyStr.join sep (nb ++ [".."])%list).
  { rewrite join_app by (assumption || discriminate).
    now rewrite app_assoc_str. }
  rewrite E. unfold normpath.
  rewrite initial_slashes_shape by (assumption || now apply join_not_abs).
  rewrite normpath_loop_names by assumption.
  rewrite fold_left_app, (normpath_loop_keeps k nb Hnb). cbn [app fold_left].
  assert (Hstep : normpath_step k nb ".." = removelast nb).
  { unfold normpath_step. cbn [String.eqb Ascii.eqb Bool.eqb negb orb].
    assert (Hk0 : (k =? 0)%nat = false) by (apply Nat.eqb_neq; lia).
    rewrite Hk0. cbn [andb orb].
    assert (Hlast : (last nb "" =? "..") = false).
    { apply String.eqb_neq. intros Hl.
      pose proof (last_In "" nb Hne) as Hin. rewrite Hl in Hin.
      rewrite Forall_forall in Hnb. now destruct (Hnb _ Hin) as (_ & _ & Hdd). }
    rewrite Hlast, andb_false_r.
    destruct nb; [congruence | reflexivity]. }
  rewrite Hstep. destruct Hk as [-> | ->]; reflexivity.
Qed.

(** For a normalized absolute base other than a root, the candidate [..]
    is denied: it normalizes to the parent of the base, which is shorter
    than the base. *)
Theorem secure_path_parent_denied {regex timestamp : Type} (B : string)
    (env : Env regex timestamp) (l : log) :
  isabs B = true -> normpath B = B -> names B <> [] ->
  fst (secure_path B ".." env l)
  = Raise (ValueError ("Access denied: Path must be within " ++ B)).
Proof.
  intros HB HnB Hne.
  destruct (normpath_abs_clean B HB) as (k & nb & Hk & Hnb & EB). rewrite HnB in EB.
  assert (Hnb_ne : nb <> []).
  { intros ->. apply Hne. rewrite EB, names_shape. reflexivity. }
  assert (Hjoin : absolute B ".." = B ++ sep ++ "..").
  { unfold absolute, join. cbn [isabs negb].
    change (isabs "..") with false. change (startswith ".." sep) with false.
    cbn [negb].
    assert (Hend : endswith B sepc = false).
    { rewrite EB. rewrite endswith_app by (apply join_nonempty;
        [now apply clean_name_ok | assumption]).
      now apply endswith_join, clean_name_ok. }
    rewrite Hend, orb_false_r.
    destruct B; [discriminate HB | reflexivity]. }
  rewrite secure_path_run, Hjoin. clear Hjoin HB HnB Hne. subst B.
  rewrite normpath_parent by assumption.
  destruct (startswith _ _) eqn:Hs; [|reflexivity].
  exfalso. apply startswith_length in Hs.
  rewrite !length_append_str in Hs.
  pose proof (join_removelast_shorter nb (clean_name_ok _ Hnb) Hnb_ne). lia.
Qed.

End Traversal.

Lemma secure_path_parent_denied_witness :
  fst (secure_path "/srv/data" ".." Example.env [])
  = Raise (ValueError ("Access denied: Path must be within " ++ "/srv/data")).
Proof.
  apply (secure_path_parent_denied "/srv/data" Example.env []);
    [reflexivity | reflexivity | discriminate].
Defined.

Section RelativePaths.
Import PyStr PosixPath Containment.

Lemma common_prefix_len_app (l r : list string) :
  common_prefix_len l (l ++ r) = List.length l.
Proof.
  induction l as [|x l IH]; cbn; [now destruct r|].
  now rewrite String.eqb_refl, IH.
Qed.

(** Joining names one after the other, as [os.path.join] of several
    arguments does, is joining them with single slashes. *)
Lemma fold_join (p : list string) :
  Forall name_ok p ->
  forall acc, acc <> "" -> endswith acc sepc = false ->
              fold_left join p acc = String.concat sep (acc :: p).
Proof.
  induction 1 as [|b p [Hne Hb] _ IH]; intros acc Hacc Hend; [reflexivity|].
  cbn [fold_left].
  assert (Hj : join acc b = acc ++ sep ++ b).
  { unfold join.
    assert (Hs : startswith b sep = false).
    { destruct b as [|c b]; [congruence|]. rewrite startswith_sep_cons.
      cbn in Hb. now apply orb_false_iff in Hb as [? _]. }
    rewrite Hs, Hend, orb_false_r.
    destruct acc; [congruence | reflexivity]. }
  rewrite Hj, IH.
  - destruct p; cbn [String.concat]; now rewrite ?app_assoc_str.
  - destruct acc; [congruence | discriminate].
  - rewrite endswith_app by discriminate.
    rewrite endswith_app by assumption. now apply endswith_no_sep.
Qed.

Lemma relpath_resolves {regex timestamp : Type} (B f cwd : string)
    (env : Env regex timestamp) (l : log) :
  isabs B = true -> normpath B = B -> isabs f = true -> normpath f = f ->
  strictly_under B f = true ->
  exists rel, relpath cwd f B = Return rel /\
              isabs rel = false /\
              secure_path B rel env l = (Return f, l).
Proof.
  intros HB HnB Hf Hnf Hunder.
  destruct (normpath_abs B HB) as (kB & nb & HkB & Hnb & EB). rewrite HnB in EB.
  destruct (normpath_abs f Hf) as (kf & nf & Hkf & Hnf' & Ef). rewrite Hnf in Ef.
  assert (HNB : names B = nb) by (rewrite EB, names_shape; now apply names_join).
  assert (HNf : names f = nf) by (rewrite Ef, names_shape; now apply names_join).
  unfold strictly_under, within in Hunder.
  apply andb_true_iff in Hunder as [Hw Hlen]. apply andb_true_iff in Hw as [Hr Hpre].
  apply String.eqb_eq in Hr. apply Nat.ltb_lt in Hlen.
  rewrite HNB, HNf in *. apply is_prefix_app in Hpre as [rest Hrest].
  assert (Hroot : repeat sep kf = repeat sep kB).
  { rewrite EB, Ef in Hr. now rewrite !root_shape in Hr by assumption. }
  rewrite Hrest, length_app in Hlen.
  destruct rest as [|a p]; [cbn in Hlen; lia|]. clear Hlen.
  assert (Hrest_ok : Forall name_ok (a :: p)).
  { rewrite Hrest in Hnf'. now apply Forall_app in Hnf' as [_ ?]. }
  assert (Hrel : relpath cwd f B = Return (PyStr.join sep (a :: p))).
  { unfold relpath, abspath. rewrite HB, Hf. cbn [negb]. rewrite HnB, Hnf.
    fold (names B). fold (names f). rewrite HNB, HNf, Hrest.
    rewrite common_prefix_len_app, Nat.sub_diag. cbn [List.repeat app].
    rewrite skipn_app, Nat.sub_diag, skipn_all. cbn [skipn app].
    destruct f; [discriminate Hf|]. cbn [String.eqb].
    inversion Hrest_ok as [|? ? [Ha Hac] Hp]; subst.
    rewrite fold_join; [reflexivity | assumption | assumption |].
    now apply endswith_no_sep. }
  exists (PyStr.join sep (a :: p)). split; [exact Hrel|].
  assert (Hnabs : isabs (PyStr.join sep (a :: p)) = false)
    by now apply join_not_abs.
  split; [exact Hnabs|].
  assert (Habs : absolute B (PyStr.join sep (a :: p)) = f).
  { unfold absolute. rewrite Hnabs. cbn [negb]. unfold join.
    unfold isabs in Hnabs. rewrite Hnabs.
    rewrite Ef, Hrest, Hroot. destruct nb as [|b nb].
    - cbn [app]. rewrite EB. cbn [PyStr.join String.concat]. rewrite append_nil.
      rewrite endswith_root, orb_true_r by assumption. reflexivity.
    - rewrite join_app by discriminate.
      assert (Hend : endswith B sepc = false).
      { rewrite EB. rewrite endswith_app
          by (apply join_nonempty; [assumption | discriminate]).
        now apply endswith_join. }
      rewrite Hend, orb_false_r.
      destruct B; [discriminate HB|]. cbn [String.eqb].
      rewrite EB. now rewrite !app_assoc_str. }
  rewrite secure_path_run, Habs, Hnf.
  assert (Hpre : startswith f B = true).
  { rewrite Ef, Hrest, Hroot, EB. destruct nb as [|b nb].
    - cbn [app PyStr.join String.concat]. rewrite append_nil. apply startswith_app.
    - rewrite join_app by discriminate. apply startswith_app_app. }
  now rewrite Hpre.
Qed.

(** For a normalized absolute base, the path of a normalized absolute file
    strictly under it, taken relative to the base by [relpath], is a relative
    path that [secure_path] accepts and resolves to the file again. *)
Theorem relpath_secure_path_round_trip {regex timestamp : Type} (B f cwd : string)
    (env : Env regex timestamp) (l : log) :
  isabs B = true -> normpath B = B -> isabs f = true -> normpath f = f ->
  strictly_under B f = true ->
  exists rel, relpath cwd f B = Return rel /\
              isabs rel = false /\
              secure_path B rel env l = (Return f, l).
Proof. apply relpath_resolves. Qed.

End RelativePaths.

Lemma relpath_secure_path_round_trip_witness :
  exists rel,
    PosixPath.relpath "/home/user" "/srv/data/sub/b.txt" "/srv/data" = Return rel /\
    PosixPath.isabs rel = false /\
    secure_path "/srv/data" rel Example.env [] = (Return "/srv/data/sub/b.txt", []).
Proof.
  apply (relpath_secure_path_round_trip "/srv/data" "/srv/data/sub/b.txt"
           "/home/user" Example.env []); reflexivity.
Defined.

(** ** More on reading and listing *)

Section ReadAndList.
Import PyStr.
Context {regex timestamp : Type}.
Implicit Types (env : Env regex timestamp) (l : log).

(** Whatever [read_file] returns is the text of a regular file whose
    normalized path passed the path check. *)
Theorem read_file_Return (B path text : string) env l :
  fst (read_file B path env l) = Return text ->
  exists s,
    fst (secure_path B path env l) = Return s /\
    startswith s B = true /\
    os_path_isfile env s = true /\
    open_read env s = Return text.
Proof.
  rewrite read_file_result, read_file_try_result.
  rewrite (secure_path_result_any_log B path env _ l).
  destruct (fst (secure_path B path env l)) as [s|e] eqn:Hs; [|discriminate].
  destruct (os_path_isfile env s) eqn:Hf; [|discriminate].
  destruct (open_read env s) as [t|e] eqn:Ho; [|discriminate].
  intros [= <-]. exists s. repeat split; try assumption.
  now apply secure_path_startswith in Hs.
Qed.

(** The loop of [list_directory] builds, in order, the entry of every child
    it does not skip. *)
Lemma list_directory_loop_entries (s : string) (ih : bool) (children : list string) :
  forall acc env l items l',
    for_each children (list_directory_item s ih) acc env l = (Return items, l') ->
    exists new,
      items = (acc ++ new)%list /\
      Forall2 (fun c it => entry_of env s c = Return it)
        (filter (listed ih) children) new.
Proof.
  induction children as [|c children IH]; intros acc env l items l' H.
  - cbn in H. injection H as <- <-. exists []. rewrite app_nil_r. split; [auto|constructor].
  - cbn [for_each] in H. unfold bind in H.
    rewrite list_directory_item_run in H. cbn [filter].
    destruct (listed ih c).
    + unfold entry_of at 1.
      destruct (os_path_isdir env _) eqn:Hd.
      * apply IH in H as (new & -> & HF).
        eexists (_ :: new). rewrite <- app_assoc. split; [reflexivity|].
        constructor; [|exact HF]. unfold entry_of. now rewrite Hd.
      * destruct (os_path_getsize env _) as [z|e] eqn:Hz; [|discriminate].
        apply IH in H as (new & -> & HF).
        eexists (_ :: new). rewrite <- app_assoc. split; [reflexivity|].
        constructor; [|exact HF]. unfold entry_of. now rewrite Hd, Hz.
    + now apply IH in H.
Qed.

Lemma Forall2_functional {A C : Type} (R : A -> C -> Prop) :
  (forall x y y', R x y -> R x y' -> y = y') ->
  forall xs ys ys', Forall2 R xs ys -> Forall2 R xs ys' -> ys = ys'.
Proof.
  intros HR xs ys ys' H. revert ys'.
  induction H as [|x y xs ys Hxy _ IH]; intros ys' H'; inversion H'; subst;
    [reflexivity|].
  f_equal; [now apply (HR x) | now apply IH].
Qed.

Lemma Forall2_filter {A C : Type} (R : A -> C -> Prop) (p : A -> bool) (q : C -> bool) :
  (forall x y, R x y -> q y = p x) ->
  forall xs ys, Forall2 R xs ys -> Forall2 R (filter p xs) (filter q ys).
Proof.
  intros Hpq xs ys H. induction H as [|x y xs ys Hxy _ IH]; [constructor|].
  cbn [filter]. rewrite (Hpq x y Hxy). destruct (p x); [now constructor | exact IH].
Qed.

(** Every entry of a listing that returns describes a child of the accepted
    directory: it is named after the child, its type says whether the child
    is a directory, its size is present exactly for files and is the size of
    the child, and it is flagged hidden exactly when its name starts with a
    dot. *)
Theorem list_directory_entries (B path : string) (ih : bool) env l
    (items : list item_info) :
  fst (list_directory B path ih env l) = Return items ->
  exists s children,
    fst (secure_path B path env l) = Return s /\
    os_path_isdir env s = true /\
    os_listdir env s = Return children /\
    map item_name items = filter (listed ih) children /\
    Forall (fun it =>
      item_is_hidden it = startswith (item_name it) "." /\
      if os_path_isdir env (PosixPath.join s (item_name it))
      then item_type it = "directory" /\ item_size it = None
      else item_type it = "file" /\
           exists z, item_size it = Some z /\
                     os_path_getsize env (PosixPath.join s (item_name it)) = Return z)
      items.
Proof.
  intros H.
  apply list_directory_Return in H as (s & children & l0 & Hs & Hd & Hl & H).
  destruct (for_each children _ [] env l0) as [r l'] eqn:E. cbn in H. subst r.
  pose proof (list_directory_loop _ _ _ _ _ _ _ _ E) as (new' & Enew & Hn & _).
  apply list_directory_loop_entries in E as (new & -> & HF). cbn [app] in *.
  subst new'. exists s, children. repeat split; try assumption.
  apply Forall2_right_In in HF. revert HF. apply Forall_impl.
  intros it (c & _ & Hc). unfold entry_of in Hc.
  destruct (os_path_isdir env (PosixPath.join s c)) eqn:Hdc.
  - injection Hc as <-. cbn. now rewrite Hdc.
  - destruct (os_path_getsize env (PosixPath.join s c)) as [z|e] eqn:Hz;
      [|discriminate].
    injection Hc as <-. cbn. rewrite Hdc. repeat split. now exists z.
Qed.

(** When the listings of a path with and without hidden entries both
    return, the second is the first without the entries flagged hidden. *)
Theorem list_directory_hidden_filter (B path : string) env l
    (all visible : list item_info) :
  fst (list_directory B path true env l) = Return all ->
  fst (list_directory B path false env l) = Return visible ->
  visible = filter (fun it => negb (item_is_hidden it)) all.
Proof.
  intros Ha Hv.
  apply list_directory_Return in Ha as (s & children & l0 & Hs & _ & Hl & Ha).
  apply list_directory_Return in Hv as (s' & children' & l1 & Hs' & _ & Hl' & Hv).
  rewrite Hs in Hs'. injection Hs' as <-. rewrite Hl in Hl'. injection Hl' as <-.
  destruct (for_each children _ [] env l0) as [r l'] eqn:Ea. cbn in Ha. subst r.
  destruct (for_each children _ [] env l1) as [r l''] eqn:Ev. cbn in Hv. subst r.
  apply list_directory_loop_entries in Ea as (na & -> & Fa).
  apply list_directory_loop_entries in Ev as (nv & -> & Fv). cbn [app] in *.
  assert (Eall : filter (listed true) children = children)
    by (clear; induction children; cbn; congruence).
  rewrite Eall in Fa.
  apply (Forall2_filter _ (listed false) (fun it => negb (item_is_hidden it))) in Fa.
  - eapply Forall2_functional; [|exact Fv|exact Fa].
    intros x y y' H1 H2. congruence.
  - intros c it Hc. unfold entry_of in Hc. unfold listed. cbn [orb].
    destruct (os_path_isdir env _); [injection Hc as <-; reflexivity|].
    destruct (os_path_getsize env _); [injection Hc as <-; reflexivity | discriminate].
Qed.


End ReadAndList.

Lemma read_file_Return_witness :
  exists s,
    fst (secure_path "/srv/data" "sub/b.txt" Example.env []) = Return s /\
    PyStr.startswith s "/srv/data" = true /\
    os_path_isfile Example.env s = true /\
    open_read Example.env s = Return "nothing".
Proof.
  apply (read_file_Return "/srv/data" "sub/b.txt" "nothing" Example.env []).
  reflexivity.
Defined.

Lemma list_directory_entries_witness :
  exists s children,
    fst (secure_path "/srv/data" "sub/.." Example.env []) = Return s /\
    os_path_isdir Example.env s = true /\
    os_listdir Example.env s = Return children /\
    map item_name [mk_item_info "a.txt" "file" false (Some 24%Z);
                   mk_item_info "sub" "directory" false None]
    = filter (listed false) children /\
    Forall (fun it =>
      item_is_hidden it = PyStr.startswith (item_name it) "." /\
      if os_path_isdir Example.env (PosixPath.join s (item_name it))
      then item_type it = "directory" /\ item_size it = None
      else item_type it = "file" /\
           exists z, item_size it = Some z /\
                     os_path_getsize Example.env (PosixPath.join s (item_name it))
                     = Return z)
      [mk_item_info "a.txt" "file" false (Some 24%Z);
       mk_item_info "sub" "directory" false None].
Proof.
  apply (list_directory_entries "/srv/data" "sub/.." false Example.env []).
  reflexivity.
Defined.

Lemma list_directory_hidden_filter_witness :
  [mk_item_info "a.txt" "file" false (Some 24%Z);
   mk_item_info "sub" "directory" false None]
  = filter (fun it => negb (item_is_hidden it))
      [mk_item_info "a.txt" "file" false (Some 24%Z);
       mk_item_info ".hidden" "file" true (Some 3%Z);
       mk_item_info "sub" "directory" false None].
Proof.
  apply (list_directory_hidden_filter "/srv/data" "." Example.env []); reflexivity.
Defined.


(** ** More on searching *)

Section SearchMore.
Import PyStr.
Context {regex timestamp : Type}.
Implicit Types (env : Env regex timestamp) (l : log).





Lemma enumerate_from_length {A : Type} (xs : list A) :
  forall i, List.length (enumerate_from i xs) = List.length xs.
Proof. induction xs; intros i; cbn; [reflexivity | now rewrite IHxs]. Qed.




Lemma contribution_file (B f : string) (cr : option string) (r : search_result) env :
  contribution B cr env f = Return (Some r) ->
  os_path_isfile env f = true /\
  PosixPath.relpath (os_getcwd env) f B = Return (result_path r) /\
  os_path_getsize env f = Return (result_size r).
Proof.
  unfold contribution.
  destruct (os_path_isfile env f); [|discriminate].
  destruct (PosixPath.relpath _ f B) as [rel|e]; [|discriminate].
  destruct (os_path_getsize env f) as [sz|e]; [|discriminate].
  destruct (truthy cr) as [pat|].
  - destruct (open_read env f) as [text|e]; [|discriminate].
    destruct (re_compile env pat) as [rx|e]; [|discriminate].
    destruct (scan_lines env rx text); [discriminate|].
    intros [= <-]. auto.
  - intros [= <-]. auto.
Qed.

Lemma Forall2_left_In {A C : Type} (R : A -> C -> Prop) (xs : list A) (ys : list C) (x : A) :
  Forall2 R xs ys -> In x xs -> exists y, In y ys /\ R x y.
Proof.
  induction 1 as [|x' y xs ys HR _ IH]; intros Hin; [contradiction|].
  destruct Hin as [-> | Hin].
  - exists y. split; [now left | assumption].
  - destruct (IH Hin) as (y' & Hy & HR'). exists y'. split; [now right | assumption].
Qed.

(** A content regex only narrows a search: when the searches with and
    without it both return, every entry found with the regex has an entry
    with the same path and size in the search without it. *)
Theorem search_files_regex_narrows (B pattern sp : string) (rec : bool)
    (cr : option string) env l (plain rs : list search_result) :
  fst (search_files B pattern sp rec None env l) = Return plain ->
  fst (search_files B pattern sp rec cr env l) = Return rs ->
  Forall (fun r => exists p, In p plain /\
                             result_path p = result_path r /\
                             result_size p = result_size r) rs.
Proof.
  intros Hp Hr.
  apply search_files_Return in Hp as (s & l0 & Hs & _ & Hp).
  apply search_files_Return in Hr as (s' & l1 & Hs' & _ & Hr).
  rewrite Hs in Hs'. injection Hs' as <-.
  apply search_files_loop in Hp as (np & -> & Fp & Hok).
  apply search_files_loop in Hr as (nr & -> & Fr & _). cbn [app].
  apply Forall2_right_In in Fr. revert Fr. apply Forall_impl.
  intros r (f & Hin & Hc). apply filter_In in Hin as [Hin _].
  apply contribution_file in Hc as (Hf & Hrel & Hsz).
  assert (Hplain : contributes B None env f = true).
  { rewrite Forall_forall in Hok. destruct (Hok f Hin) as [o Ho].
    now rewrite (contributes_plain B f o env Ho). }
  destruct (Forall2_left_In _ _ _ f Fp) as (p & Hp & Hcp);
    [apply filter_In; now split|].
  apply contribution_file in Hcp as (_ & Hrel' & Hsz').
  exists p. split; [assumption|]. split; congruence.
Qed.


End SearchMore.

(** ** Reading what a search found *)

Section SearchThenRead.
Import PyStr PosixPath Containment.
Context {regex timestamp : Type}.
Implicit Types (env : Env regex timestamp) (l : log).

(** The paths that a search returns can be handed back to [read_file]: for a
    normalized absolute base, every returned entry stems from a regular file
    whose path relative to the base is the entry's path, and when that file's
    path is normalized and strictly under the base, reading the entry's path
    reads that very file. *)
Theorem search_files_result_readable (B pattern sp : string) (rec : bool)
    (cr : option string) env l (rs : list search_result) :
  isabs B = true -> normpath B = B ->
  fst (search_files B pattern sp rec cr env l) = Return rs ->
  Forall (fun r => exists f,
    os_path_isfile env f = true /\
    relpath (os_getcwd env) f B = Return (result_path r) /\
    (isabs f = true -> normpath f = f -> strictly_under B f = true ->
     forall l',
       fst (read_file B (result_path r) env l') =
       match open_read env f with
       | Return text => Return text
       | Raise e => Raise (ValueError ("Failed to read file: " ++ str e))
       end)) rs.
Proof.
  intros HB HnB H. apply search_files_Return in H as (s & l0 & _ & _ & Hloop).
  apply search_files_loop in Hloop as (new & -> & HF & _). cbn [app].
  apply Forall2_right_In in HF. revert HF. apply Forall_impl.
  intros r (f & _ & Hc). apply contribution_file in Hc as (Hf & Hrel & _).
  exists f. repeat split; try assumption.
  intros Habs Hnorm Hunder l'.
  destruct (relpath_resolves B f (os_getcwd env) env l'
              HB HnB Habs Hnorm Hunder) as (rel & Hrel' & _ & Hsec).
  rewrite Hrel in Hrel'. injection Hrel' as <-.
  rewrite read_file_result, read_file_try_result.
  rewrite (secure_path_result_any_log B (result_path r) env _ l'), Hsec.
  cbn [fst]. rewrite Hf. destruct (open_read env f); reflexivity.
Qed.

(** The glob pattern of a search stays under the accepted search path when
    the file pattern is relative; an absolute file pattern replaces the
    search path altogether. *)
Theorem search_pattern_scope (s pattern : string) (rec : bool) :
  (isabs pattern = false -> startswith (search_pattern s pattern rec) s = true) /\
  (isabs pattern = true -> search_pattern s pattern rec = pattern).
Proof.
  assert (Hj : forall a b, isabs b = false -> exists t, join a b = a ++ t).
  { intros a b Hb. unfold join. unfold isabs in Hb. rewrite Hb.
    destruct (_ || _); eauto. }
  split; intros Hp; unfold search_pattern.
  - destruct rec.
    + destruct (Hj s "**" eq_refl) as [t ->].
      destruct (Hj (s ++ t) pattern Hp) as [u ->].
      rewrite app_assoc_str. apply startswith_app.
    + destruct (Hj s pattern Hp) as [t ->]. apply startswith_app.
  - unfold join. unfold isabs in Hp. rewrite Hp. now destruct rec.
Qed.

End SearchThenRead.

Lemma search_files_result_readable_witness :
  Forall (fun r => exists f,
    os_path_isfile Example.env f = true /\
    PosixPath.relpath (os_getcwd Example.env) f "/srv/data" = Return (result_path r) /\
    (PosixPath.isabs f = true -> PosixPath.normpath f = f ->
     Containment.strictly_under "/srv/data" f = true ->
     forall l',
       fst (read_file "/srv/data" (result_path r) Example.env l') =
       match open_read Example.env f with
       | Return text => Return text
       | Raise e => Raise (ValueError ("Failed to read file: " ++ str e))
       end))
    [mk_search_result "a.txt" 24 (Some [mk_match_info 2 "needle here"])].
Proof.
  apply (search_files_result_readable "/srv/data" "*.txt" "." true (Some "needle")
           Example.env []); reflexivity.
Defined.

(** ** More on the ring of recent changes *)

Section ChangeRingMore.
Context {regex timestamp : Type}.
Implicit Types (env : Env regex timestamp) (fc cs : list (change timestamp)).

(** Events on directories leave the ring as it is. *)
Lemma deliver_skips_directories (B : string)
    (evs : list (Env regex timestamp * fs_event)) :
  forall fc,
    deliver B fc evs
    = deliver B fc (filter (fun ee => negb (is_directory (snd ee))) evs).
Proof.
  induction evs as [|[env ev] evs IH]; intros fc; [reflexivity|].
  cbn [filter snd]. destruct (is_directory ev) eqn:Hd; cbn [negb].
  - assert (E : on_any_event B env ev fc = (Return tt, fc))
      by (unfold on_any_event; now rewrite Hd).
    unfold deliver at 1. cbn [fold_left fst snd]. rewrite E. cbn [snd]. apply IH.
  - unfold deliver at 1 2. cbn [fold_left]. apply IH.
Qed.

(** Starting from the empty ring, after any sequence of events whose file
    events could all be recorded, the ring is the 100 most recent records of
    the file events, in order of arrival, whatever directory events came in
    between; up to 100 file events, it is all their records. *)
Theorem change_ring_file_events (B : string)
    (evs : list (Env regex timestamp * fs_event)) cs :
  recorded B (filter (fun ee => negb (is_directory (snd ee))) evs) cs ->
  deliver B [] evs = lastn 100 cs /\
  (List.length cs <= 100 -> deliver B [] evs = cs).
Proof.
  intros H. rewrite deliver_skips_directories.
  rewrite (deliver_recorded B _ cs H []) by (cbn; lia). cbn [app].
  split; [reflexivity|]. intros Hlen. now apply lastn_short.
Qed.

(** An event whose record cannot be built raises in the handler and leaves
    the ring as it is. *)
Lemma on_any_event_failure (B : string) env (ev : fs_event) fc (e : exn) :
  fst (on_any_event B env ev fc) = Raise e ->
  snd (on_any_event B env ev fc) = fc /\
  is_directory ev = false /\ make_change B env ev = Raise e.
Proof.
  unfold on_any_event. destruct (is_directory ev); [discriminate|].
  destruct (make_change B env ev) as [c|e'].
  - destruct (100 <? _)%nat; discriminate.
  - cbn. intros [= <-]. auto.
Qed.

End ChangeRingMore.

Lemma change_ring_file_events_witness :
  deliver "/srv/data" [] with_directory
  = [mk_change "a.txt" "modified" (Some 1700000000%Z);
     mk_change "gone.txt" "deleted" None].
Proof.
  apply (change_ring_file_events "/srv/data" with_directory
           [mk_change "a.txt" "modified" (Some 1700000000%Z);
            mk_change "gone.txt" "deleted" None]).
  - apply records_recorded. reflexivity.
  - cbn. lia.
Defined.


Lemma search_files_regex_narrows_witness :
  Forall (fun r => exists p,
            In p [mk_search_result "a.txt" 24 None;
                  mk_search_result "sub/b.txt" 7 None;
                  mk_search_result "sub/empty.txt" 0 None] /\
            result_path p = result_path r /\ result_size p = result_size r)
    [mk_search_result "a.txt" 24 (Some [mk_match_info 2 "needle here"])].
Proof.
  apply (search_files_regex_narrows "/srv/data" "*.txt" "." true (Some "needle")
           Example.env []); reflexivity.
Defined.


Lemma search_pattern_scope_witness :
  PyStr.startswith (search_pattern "/srv/data" "*.txt" true) "/srv/data" = true /\
  search_pattern "/srv/data" "/etc/*" true = "/etc/*".
Proof.
  split.
  - apply (search_pattern_scope "/srv/data" "*.txt" true). reflexivity.
  - apply (search_pattern_scope "/srv/data" "/etc/*" true). reflexivity.
Defined.
